(** * sign-xpi: the retrieve / verify / sign / upload handler

    A shallow embedding of [apex/functions/sign-xpi/sign_xpi.py] and the
    properties of its pipeline.  Python 2 byte strings ([str]) are Rocq
    [string]s: a URL, a header value, a hex digest and the contents of a
    file all have that one type, as they do in the program. *)

From Stdlib Require Import ZArith NArith List String Ascii Bool Lia.
Import ListNotations.
Open Scope string_scope.

(** ** Python string primitives used by the handler *)

Module Py.

(** Truthiness of a string: [if s:] *)
Definition nonempty (s : string) : bool :=
  match s with EmptyString => false | String _ _ => true end.

(** Truthiness of [d.get(k)] for a string-valued entry. *)
Definition truthy (o : option string) : bool :=
  match o with Some s => nonempty s | None => false end.

(** [a or b] where [a] is [None] or a string. *)
Definition or_else (a : option string) (b : string) : string :=
  match a with
  | Some s => if nonempty s then s else b
  | None => b
  end.

(** [s[:n]] and [s[n:]] *)
Fixpoint take (n : N) (s : string) : string :=
  match s with
  | EmptyString => EmptyString
  | String c s' => if N.eqb n 0 then EmptyString else String c (take (N.pred n) s')
  end.

Fixpoint drop (n : N) (s : string) : string :=
  match s with
  | EmptyString => EmptyString
  | String c s' => if N.eqb n 0 then s else drop (N.pred n) s'
  end.

(** [s.lstrip(...)], [s.rstrip(...)], [s.strip(...)] for a class of
    characters [p]. *)
Fixpoint lstrip (p : ascii -> bool) (s : string) : string :=
  match s with
  | EmptyString => EmptyString
  | String c s' => if p c then lstrip p s' else s
  end.

Fixpoint rstrip (p : ascii -> bool) (s : string) : string :=
  match s with
  | EmptyString => EmptyString
  | String c s' =>
      match rstrip p s' with
      | EmptyString => if p c then EmptyString else String c EmptyString
      | r => String c r
      end
  end.

Definition strip_with (p : ascii -> bool) (s : string) : string :=
  rstrip p (lstrip p s).

(** [s.strip(c)] for a one-character argument. *)
Definition strip_char (c : ascii) : string -> string :=
  strip_with (Ascii.eqb c).

(** The characters [str.strip()] removes: space, \t, \n, \v, \f, \r. *)
Definition isspace (c : ascii) : bool :=
  let n := N_of_ascii c in
  (N.eqb n 32 || (N.leb 9 n && N.leb n 13))%bool.

Definition strip : string -> string := strip_with isspace.

(** [s.split(sep)] for a one-character separator. *)
Fixpoint split (sep : ascii) (s : string) : list string :=
  match s with
  | EmptyString => [EmptyString]
  | String c s' =>
      if Ascii.eqb c sep then EmptyString :: split sep s'
      else match split sep s' with
           | h :: t => String c h :: t
           | [] => [String c EmptyString]
           end
  end.

(** [s.split(sep, 1)] *)
Fixpoint split1 (sep : ascii) (s : string) : list string :=
  match s with
  | EmptyString => [EmptyString]
  | String c s' =>
      if Ascii.eqb c sep then [EmptyString; s']
      else match split1 sep s' with
           | h :: t => String c h :: t
           | [] => [String c EmptyString]
           end
  end.

(** [s.rsplit(sep, 1)]: cut at the last separator, if there is one. *)
Fixpoint rcut (sep : ascii) (s : string) : option (string * string) :=
  match s with
  | EmptyString => None
  | String c s' =>
      match rcut sep s' with
      | Some (a, b) => Some (String c a, b)
      | None => if Ascii.eqb c sep then Some (EmptyString, s') else None
      end
  end.

Definition rsplit1 (sep : ascii) (s : string) : list string :=
  match rcut sep s with
  | Some (a, b) => [a; b]
  | None => [s]
  end.

(** [s.replace(old, new)] for a two-character [old]. *)
Fixpoint replace2 (a b : ascii) (new : string) (s : string) : string :=
  match s with
  | EmptyString => EmptyString
  | String c s' =>
      match s' with
      | EmptyString => s
      | String d rest =>
          if (Ascii.eqb c a && Ascii.eqb d b)%bool
          then new ++ replace2 a b new rest
          else String c (replace2 a b new s')
      end
  end.

Definition startswith (c : ascii) (s : string) : bool :=
  match s with String d _ => Ascii.eqb c d | EmptyString => false end.

Fixpoint endswith (c : ascii) (s : string) : bool :=
  match s with
  | EmptyString => false
  | String d EmptyString => Ascii.eqb c d
  | String _ s' => endswith c s'
  end.

(** [s[:-1]] *)
Fixpoint init (s : string) : string :=
  match s with
  | EmptyString => EmptyString
  | String _ EmptyString => EmptyString
  | String c s' => String c (init s')
  end.

(** [s[1:-1]] *)
Definition middle (s : string) : string :=
  match s with
  | EmptyString => EmptyString
  | String _ s' => init s'
  end.

(** [c in s] *)
Fixpoint contains (c : ascii) (s : string) : bool :=
  match s with
  | EmptyString => false
  | String d s' => (Ascii.eqb c d || contains c s')%bool
  end.

(** [s.find(c)], [None] standing for [-1]. *)
Fixpoint find (c : ascii) (s : string) : option N :=
  match s with
  | EmptyString => None
  | String d s' =>
      if Ascii.eqb c d then Some 0%N
      else option_map N.succ (find c s')
  end.

(** [s.rfind(c)] *)
Fixpoint rfind (c : ascii) (s : string) : option N :=
  match s with
  | EmptyString => None
  | String d s' =>
      match rfind c s' with
      | Some i => Some (N.succ i)
      | None => if Ascii.eqb c d then Some 0%N else None
      end
  end.

Definition len (s : string) : N := N.of_nat (String.length s).

(** [s.lower()] on ASCII letters. *)
Definition lower_char (c : ascii) : ascii :=
  let n := N_of_ascii c in
  if (N.leb 65 n && N.leb n 90)%bool then ascii_of_N (n + 32) else c.

Fixpoint lower (s : string) : string :=
  match s with
  | EmptyString => EmptyString
  | String c s' => String (lower_char c) (lower s')
  end.

Fixpoint forallb_str (p : ascii -> bool) (s : string) : bool :=
  match s with
  | EmptyString => true
  | String c s' => (p c && forallb_str p s')%bool
  end.

End Py.

(** ** hashlib.sha256 (FIPS 180-4) on 32-bit words held in [Z] *)

Module SHA256.

Local Open Scope Z_scope.

Definition mask32 : Z := 0xFFFFFFFF.

Definition add32 (a b : Z) : Z := Z.land (a + b) mask32.

Definition rotr (n x : Z) : Z :=
  Z.lor (Z.shiftr x n) (Z.land (Z.shiftl x (32 - n)) mask32).

Definition Ch (x y z : Z) : Z :=
  Z.lxor (Z.land x y) (Z.land (Z.lxor x mask32) z).

Definition Maj (x y z : Z) : Z :=
  Z.lxor (Z.lxor (Z.land x y) (Z.land x z)) (Z.land y z).

Definition bsig0 (x : Z) : Z :=
  Z.lxor (Z.lxor (rotr 2 x) (rotr 13 x)) (rotr 22 x).

Definition bsig1 (x : Z) : Z :=
  Z.lxor (Z.lxor (rotr 6 x) (rotr 11 x)) (rotr 25 x).

Definition ssig0 (x : Z) : Z :=
  Z.lxor (Z.lxor (rotr 7 x) (rotr 18 x)) (Z.shiftr x 3).

Definition ssig1 (x : Z) : Z :=
  Z.lxor (Z.lxor (rotr 17 x) (rotr 19 x)) (Z.shiftr x 10).

(** The first sixty-four primes. *)
Definition primes : list Z :=
  [ 2; 3; 5; 7; 11; 13; 17; 19; 23; 29; 31; 37; 41; 43; 47; 53;
    59; 61; 67; 71; 73; 79; 83; 89; 97; 101; 103; 107; 109; 113; 127; 131;
    137; 139; 149; 151; 157; 163; 167; 173; 179; 181; 191; 193; 197; 199;
    211; 223; 227; 229; 233; 239; 241; 251; 257; 263; 269; 271; 277; 281;
    283; 293; 307; 311 ].

(** The integer cube root, by bisection between [lo] and [hi]. *)
Fixpoint cbrt_between (fuel : nat) (lo hi n : Z) : Z :=
  match fuel with
  | O => lo
  | S fuel' =>
      let mid := (lo + hi) / 2 in
      if mid =? lo then lo
      else if mid * mid * mid <=? n then cbrt_between fuel' mid hi n
      else cbrt_between fuel' lo mid n
  end.

Definition cbrt (n : Z) : Z := cbrt_between 64 0 (2 ^ 40) n.

(** The round constants: the first thirty-two bits of the fractional
    parts of the cube roots of the primes. *)
Definition K : list Z :=
  map (fun p => Z.land (cbrt (p * 2 ^ 96)) mask32) primes.

(** The initial hash value: the first thirty-two bits of the fractional
    parts of the square roots of the first eight primes. *)
Definition H0 : list Z :=
  map (fun p => Z.land (Z.sqrt (p * 2 ^ 64)) mask32) (firstn 8 primes).

Definition byte_of (c : ascii) : Z := Z.of_N (N_of_ascii c).
Definition char_of (b : Z) : ascii := ascii_of_N (Z.to_N (Z.land b 0xFF)).

Fixpoint bytes_of (s : string) : list Z :=
  match s with
  | EmptyString => []
  | String c s' => byte_of c :: bytes_of s'
  end.

Fixpoint string_of (l : list Z) : string :=
  match l with
  | [] => EmptyString
  | b :: l' => String (char_of b) (string_of l')
  end.

(** Big-endian bytes of the low [8 * n] bits of [x]. *)
Fixpoint be_bytes (n : nat) (x : Z) : list Z :=
  match n with
  | O => []
  | S n' => Z.land (Z.shiftr x (8 * Z.of_nat n')) 0xFF :: be_bytes n' x
  end.

(** The message followed by 0x80, zero bytes up to 56 mod 64, and the
    bit length on 64 bits. *)
Definition pad (msg : list Z) : list Z :=
  let l := Z.of_nat (List.length msg) in
  let zeros := Z.to_nat ((55 - l) mod 64) in
  msg ++ [0x80] ++ repeat 0 zeros ++ be_bytes 8 (8 * l).

(** Sixteen big-endian words from the first 64 bytes. *)
Fixpoint words (n : nat) (bs : list Z) : list Z :=
  match n with
  | O => []
  | S n' =>
      match bs with
      | b0 :: b1 :: b2 :: b3 :: rest =>
          Z.lor (Z.lor (Z.shiftl b0 24) (Z.shiftl b1 16))
                (Z.lor (Z.shiftl b2 8) b3)
            :: words n' rest
      | _ => []
      end
  end.

(** The next word of the message schedule from the last sixteen. *)
Definition next_w (w : list Z) : Z :=
  add32 (add32 (ssig1 (nth 14 w 0)) (nth 9 w 0))
        (add32 (ssig0 (nth 1 w 0)) (nth 0 w 0)).

Record regs : Type := mkRegs {
  ra : Z; rb : Z; rc : Z; rd : Z; re : Z; rf : Z; rg : Z; rh : Z
}.

Definition round (r : regs) (k w : Z) : regs :=
  let t1 := add32 (add32 (add32 (rh r) (bsig1 (re r)))
                         (add32 (Ch (re r) (rf r) (rg r)) k)) w in
  let t2 := add32 (bsig0 (ra r)) (Maj (ra r) (rb r) (rc r)) in
  mkRegs (add32 t1 t2) (ra r) (rb r) (rc r)
         (add32 (rd r) t1) (re r) (rf r) (rg r).

Fixpoint rounds (ks : list Z) (w : list Z) (r : regs) : regs :=
  match ks with
  | [] => r
  | k :: ks' =>
      let r' := round r k (nth 0 w 0) in
      rounds ks' (tl w ++ [next_w w]) r'
  end.

Definition regs_of (h : list Z) : regs :=
  mkRegs (nth 0 h 0) (nth 1 h 0) (nth 2 h 0) (nth 3 h 0)
         (nth 4 h 0) (nth 5 h 0) (nth 6 h 0) (nth 7 h 0).

Definition compress (h : list Z) (block : list Z) : list Z :=
  let r0 := regs_of h in
  let r := rounds K (words 16 block) r0 in
  [ add32 (ra r0) (ra r); add32 (rb r0) (rb r);
    add32 (rc r0) (rc r); add32 (rd r0) (rd r);
    add32 (re r0) (re r); add32 (rf r0) (rf r);
    add32 (rg r0) (rg r); add32 (rh r0) (rh r) ].

Fixpoint blocks (n : nat) (h : list Z) (bs : list Z) : list Z :=
  match n with
  | O => h
  | S n' => blocks n' (compress h (firstn 64 bs)) (skipn 64 bs)
  end.

(** [hashlib.sha256(s).digest()] *)
Definition digest (s : string) : string :=
  let p := pad (bytes_of s) in
  let h := blocks (Nat.div (List.length p) 64) H0 p in
  string_of (flat_map (be_bytes 4) h).

Definition hex_digit (n : Z) : ascii :=
  if n <? 10 then ascii_of_N (Z.to_N (48 + n))
  else ascii_of_N (Z.to_N (87 + n)).

Fixpoint hex (s : string) : string :=
  match s with
  | EmptyString => EmptyString
  | String c s' =>
      let b := byte_of c in
      String (hex_digit (Z.shiftr b 4))
             (String (hex_digit (Z.land b 0xF)) (hex s'))
  end.

(** [hashlib.sha256(s).hexdigest()]: lowercase hexadecimal. *)
Definition hexdigest (s : string) : string := hex (digest s).

End SHA256.

(** ** base64.b64encode and base64.b64decode (Python 2.7, binascii) *)

Module Base64.

Local Open Scope Z_scope.

Definition alphabet : string :=
  "ABCDEFGHIJKLMNOPQRSTUVWXYZabcdefghijklmnopqrstuvwxyz0123456789+/".

Definition enc (n : Z) : ascii :=
  match String.get (Z.to_nat (Z.land n 63)) alphabet with
  | Some c => c
  | None => "="%char
  end.

Fixpoint encode_bytes (bs : list Z) : string :=
  match bs with
  | [] => EmptyString
  | [a] =>
      String (enc (Z.shiftr a 2))
        (String (enc (Z.shiftl (Z.land a 3) 4)) "==")
  | [a; b] =>
      String (enc (Z.shiftr a 2))
        (String (enc (Z.lor (Z.shiftl (Z.land a 3) 4) (Z.shiftr b 4)))
           (String (enc (Z.shiftl (Z.land b 15) 2)) "="))
  | a :: b :: c :: rest =>
      String (enc (Z.shiftr a 2))
        (String (enc (Z.lor (Z.shiftl (Z.land a 3) 4) (Z.shiftr b 4)))
           (String (enc (Z.lor (Z.shiftl (Z.land b 15) 2) (Z.shiftr c 6)))
              (String (enc (Z.land c 63)) (encode_bytes rest))))
  end.

(** [base64.b64encode(s)] *)
Definition b64encode (s : string) : string :=
  encode_bytes (SHA256.bytes_of s).

(** [table_a2b_base64]: the value of a character, [-1] for one outside
    the alphabet; the pad character has value 0. *)
Definition a2b (c : ascii) : Z :=
  let n := Z.of_N (N_of_ascii c) in
  if (65 <=? n) && (n <=? 90) then n - 65
  else if (97 <=? n) && (n <=? 122) then n - 71
  else if (48 <=? n) && (n <=? 57) then n + 4
  else if n =? 43 then 62
  else if n =? 47 then 63
  else if n =? 61 then 0
  else -1.

(** [binascii_find_valid]: the [(num+1)]-th valid character, [-1] if
    there is none. *)
Fixpoint find_valid (s : string) (num : Z) : Z :=
  match s with
  | EmptyString => -1
  | String c s' =>
      let n := Z.of_N (N_of_ascii c) in
      if (n <=? 127) && negb (a2b c =? -1) then
        if num =? 0 then n else find_valid s' (num - 1)
      else find_valid s' num
  end.

(** The loop of [binascii.a2b_base64]; the result pairs the bytes
    produced (in reverse) with the bits left over. *)
Fixpoint a2b_loop (s : string) (quad_pos leftchar leftbits : Z)
         (out : list Z) : list Z * Z :=
  match s with
  | EmptyString => (out, leftbits)
  | String c s' =>
      let n := Z.of_N (N_of_ascii c) in
      if (127 <? n) || (n =? 13) || (n =? 10) || (n =? 32) then
        a2b_loop s' quad_pos leftchar leftbits out
      else if n =? 61 then
        if (quad_pos <? 2)
           || ((quad_pos =? 2) && negb (find_valid s 1 =? 61))
        then a2b_loop s' quad_pos leftchar leftbits out
        else (out, 0)
      else
        let v := a2b c in
        if v =? -1 then a2b_loop s' quad_pos leftchar leftbits out
        else
          let quad_pos := Z.land (quad_pos + 1) 3 in
          let leftchar := Z.lor (Z.shiftl leftchar 6) v in
          let leftbits := leftbits + 6 in
          if 8 <=? leftbits then
            let leftbits := leftbits - 8 in
            a2b_loop s' quad_pos
              (Z.land leftchar (Z.shiftl 1 leftbits - 1)) leftbits
              (Z.land (Z.shiftr leftchar leftbits) 0xFF :: out)
          else a2b_loop s' quad_pos leftchar leftbits out
  end.

(** [base64.b64decode(s)]; [None] is the [TypeError] raised on
    incorrect padding. *)
Definition b64decode (s : string) : option string :=
  let '(out, leftbits) := a2b_loop s 0 0 0 [] in
  if leftbits =? 0 then Some (SHA256.string_of (rev out)) else None.

End Base64.

(** ** urlparse.urljoin (Python 2.7) *)

Module UrlParse.

Definition uses_relative : list string :=
  ["ftp"; "http"; "gopher"; "nntp"; "imap"; "wais"; "file"; "https";
   "shttp"; "mms"; "prospero"; "rtsp"; "rtspu"; EmptyString; "sftp"; "svn";
   "svn+ssh"].

Definition uses_netloc : list string :=
  ["ftp"; "http"; "gopher"; "nntp"; "telnet"; "imap"; "wais"; "file";
   "mms"; "https"; "shttp"; "snews"; "prospero"; "rtsp"; "rtspu";
   "rsync"; EmptyString; "svn"; "svn+ssh"; "sftp"; "nfs"; "git";
   "git+ssh"].

Definition uses_params : list string :=
  ["ftp"; "hdl"; "prospero"; "http"; "imap"; "https"; "shttp"; "rtsp";
   "rtspu"; "sip"; "sips"; "mms"; EmptyString; "sftp"; "tel"].

Definition mem (s : string) (l : list string) : bool :=
  existsb (String.eqb s) l.

Definition scheme_char (c : ascii) : bool :=
  let n := N_of_ascii c in
  ((N.leb 97 n && N.leb n 122) || (N.leb 65 n && N.leb n 90)
   || (N.leb 48 n && N.leb n 57)
   || N.eqb n 43 || N.eqb n 45 || N.eqb n 46)%bool.

Definition digit (c : ascii) : bool :=
  let n := N_of_ascii c in (N.leb 48 n && N.leb n 57)%bool.

(** The text before the first of [/], [?], [#] and the rest from it. *)
Fixpoint span_netloc (s : string) : string * string :=
  match s with
  | EmptyString => (EmptyString, EmptyString)
  | String c s' =>
      if (Ascii.eqb c "/" || Ascii.eqb c "?" || Ascii.eqb c "#")%bool
      then (EmptyString, s)
      else let '(a, b) := span_netloc s' in (String c a, b)
  end.

(** [_splitnetloc(url, 2)] *)
Definition splitnetloc (url : string) : string * string :=
  span_netloc (Py.drop 2 url).

(** [url.split(c, 1)] when [c in url]. *)
Definition cut (c : ascii) (s : string) : string * string :=
  match Py.split1 c s with
  | [a; b] => (a, b)
  | _ => (s, EmptyString)
  end.

Record SplitResult : Type := mkSplit {
  s_scheme : string; s_netloc : string; s_path : string;
  s_query : string; s_fragment : string
}.

(** The part of [urlsplit] after the scheme has been removed; [None] is
    [ValueError("Invalid IPv6 URL")]. *)
Definition split_rest (scheme url : string) : option SplitResult :=
  let '(netloc, url, ok) :=
    if String.eqb (Py.take 2 url) "//" then
      let '(netloc, rest) := splitnetloc url in
      (netloc, rest,
       negb ((Py.contains "[" netloc && negb (Py.contains "]" netloc))
             || (Py.contains "]" netloc && negb (Py.contains "[" netloc))))
    else (EmptyString, url, true) in
  if ok then
    let '(url, fragment) :=
      if Py.contains "#" url then cut "#" url else (url, EmptyString) in
    let '(url, query) :=
      if Py.contains "?" url then cut "?" url else (url, EmptyString) in
    Some (mkSplit scheme netloc url query fragment)
  else None.

(** [urlsplit(url, scheme)] *)
Definition urlsplit (url scheme : string) : option SplitResult :=
  match Py.find ":" url with
  | Some i =>
      if N.ltb 0 i then
        if String.eqb (Py.take i url) "http" then
          split_rest (Py.lower (Py.take i url)) (Py.drop (i + 1) url)
        else if Py.forallb_str scheme_char (Py.take i url) then
          let rest := Py.drop (i + 1) url in
          if (negb (Py.nonempty rest)
              || negb (Py.forallb_str digit rest))%bool
          then split_rest (Py.lower (Py.take i url)) rest
          else split_rest scheme url
        else split_rest scheme url
      else split_rest scheme url
  | None => split_rest scheme url
  end.

(** Position of the first [;] at or after the last [/]. *)
Definition splitparams (url : string) : string * string :=
  match Py.rcut "/" url with
  | Some (a, b) =>
      if Py.contains ";" b
      then let '(p, q) := cut ";" b in (a ++ "/" ++ p, q)
      else (url, EmptyString)
  | None =>
      match Py.find ";" url with
      | Some i => (Py.take i url, Py.drop (i + 1) url)
      | None => (Py.init url, url)
      end
  end.

Record ParseResult : Type := mkParse {
  scheme : string; netloc : string; path : string;
  params : string; query : string; fragment : string
}.

(** [urlparse(url, scheme)] *)
Definition urlparse (url sch : string) : option ParseResult :=
  match urlsplit url sch with
  | None => None
  | Some r =>
      let '(url, params) :=
        if (mem (s_scheme r) uses_params && Py.contains ";" (s_path r))%bool
        then splitparams (s_path r)
        else (s_path r, EmptyString) in
      Some (mkParse (s_scheme r) (s_netloc r) url params
                    (s_query r) (s_fragment r))
  end.

(** [urlunsplit] *)
Definition urlunsplit (scheme netloc url query fragment : string) : string :=
  let url :=
    if (Py.nonempty netloc
        || (Py.nonempty scheme && mem scheme uses_netloc
            && negb (String.eqb (Py.take 2 url) "//")))%bool
    then
      let url :=
        if (Py.nonempty url && negb (String.eqb (Py.take 1 url) "/"))%bool
        then "/" ++ url else url in
      "//" ++ netloc ++ url
    else url in
  let url := if Py.nonempty scheme then scheme ++ ":" ++ url else url in
  let url := if Py.nonempty query then url ++ "?" ++ query else url in
  if Py.nonempty fragment then url ++ "#" ++ fragment else url.

(** [urlunparse] *)
Definition urlunparse (r : ParseResult) : string :=
  let url :=
    if Py.nonempty (params r) then path r ++ ";" ++ params r else path r in
  urlunsplit (scheme r) (netloc r) url (query r) (fragment r).

(** One pass of the loop that removes a [x/..] pair: the first
    position [i] with [1 <= i < len - 1], [segments[i] == '..'] and
    [segments[i-1]] neither empty nor ['..']. *)
Fixpoint collapse1 (prev : string) (rest : list string)
  : option (list string) :=
  match rest with
  | cur :: (_ :: _) as more =>
      if (String.eqb cur ".."
          && negb (String.eqb prev EmptyString || String.eqb prev ".."))%bool
      then Some more
      else option_map (cons prev) (collapse1 cur more)
  | _ => None
  end.

Fixpoint collapse (fuel : nat) (segs : list string) : list string :=
  match fuel with
  | O => segs
  | S fuel' =>
      match segs with
      | first :: rest =>
          match collapse1 first rest with
          | Some segs' => collapse fuel' segs'
          | None => segs
          end
      | [] => segs
      end
  end.

Definition join_slash (l : list string) : string := String.concat "/" l.

(** The dot-segment handling of [urljoin] for a relative path. *)
Definition merge_paths (bpath path : string) : string :=
  let segments :=
    (removelast (Py.split "/" bpath) ++ Py.split "/" path)%list in
  let segments :=
    if String.eqb (last segments EmptyString) "."
    then (removelast segments ++ [EmptyString])%list else segments in
  let segments := filter (fun s => negb (String.eqb s ".")) segments in
  let segments := collapse (List.length segments) segments in
  let segments :=
    match segments with
    | [EmptyString; ".."] => [EmptyString; EmptyString]
    | _ =>
        if (Nat.leb 2 (List.length segments)
            && String.eqb (last segments EmptyString) "..")%bool
        then (removelast (removelast segments) ++ [EmptyString])%list
        else segments
    end in
  join_slash segments.

(** [urljoin(base, url)]; [None] is the [ValueError] of [urlsplit]. *)
Definition urljoin (base url : string) : option string :=
  if negb (Py.nonempty base) then Some url
  else if negb (Py.nonempty url) then Some base
  else
    match urlparse base EmptyString with
    | None => None
    | Some b =>
        match urlparse url (scheme b) with
        | None => None
        | Some u =>
            if (negb (String.eqb (scheme u) (scheme b))
                || negb (mem (scheme u) uses_relative))%bool
            then Some url
            else if (mem (scheme u) uses_netloc
                     && Py.nonempty (netloc u))%bool
            then Some (urlunparse u)
            else
              let netloc' :=
                if mem (scheme u) uses_netloc then netloc b else netloc u in
              if String.eqb (Py.take 1 (path u)) "/" then
                Some (urlunparse
                        (mkParse (scheme u) netloc' (path u) (params u)
                                 (query u) (fragment u)))
              else if (negb (Py.nonempty (path u))
                       && negb (Py.nonempty (params u)))%bool
              then
                Some (urlunparse
                        (mkParse (scheme u) netloc' (path b) (params b)
                                 (if Py.nonempty (query u)
                                  then query u else query b)
                                 (fragment u)))
              else
                Some (urlunparse
                        (mkParse (scheme u) netloc'
                                 (merge_paths (path b) (path u))
                                 (params u) (query u) (fragment u)))
        end
    end.

End UrlParse.

(** ** os.path.splitext (posixpath) and rfc822.unquote *)

Module PosixPath.

Local Open Scope Z_scope.

Definition rfindZ (c : ascii) (p : string) : Z :=
  match Py.rfind c p with Some i => Z.of_N i | None => -1 end.

(** [p[i:j]] for [0 <= i]. *)
Definition slice (i j : Z) (p : string) : string :=
  Py.take (Z.to_N (j - i)) (Py.drop (Z.to_N i) p).

(** [genericpath._splitext(p, '/', None, '.')] : the extension starts at
    the last dot of the last component, unless that component consists
    of dots only up to it. *)
Definition splitext (p : string) : string * string :=
  let sepIndex := rfindZ "/" p in
  let dotIndex := rfindZ "." p in
  if (sepIndex <? dotIndex)
     && negb (Py.forallb_str (Ascii.eqb ".") (slice (sepIndex + 1) dotIndex p))
  then (Py.take (Z.to_N dotIndex) p, Py.drop (Z.to_N dotIndex) p)
  else (p, EmptyString).

End PosixPath.

Module Rfc822.

Definition dquote : ascii := ascii_of_N 34.

(** [rfc822.unquote(s)] *)
Definition unquote (s : string) : string :=
  if Nat.ltb 1 (String.length s) then
    if (Py.startswith dquote s && Py.endswith dquote s)%bool then
      Py.replace2 "\" dquote (String dquote EmptyString)
        (Py.replace2 "\" "\" "\" (Py.middle s))
    else if (Py.startswith "<" s && Py.endswith ">" s)%bool then
      Py.middle s
    else s
  else s.

End Rfc822.

(** ** Values exchanged with the outside *)

(** A decoded JSON document ([resp.json()], the [json=] body of a
    request). *)
#[local] Unset Elimination Schemes.
Inductive json : Type :=
| JNull
| JBool (b : bool)
| JNum (n : Z)
| JStr (s : string)
| JArr (l : list json)
| JObj (o : list (string * json)).
#[local] Set Elimination Schemes.

Fixpoint assoc {A : Type} (k : string) (l : list (string * A)) : option A :=
  match l with
  | [] => None
  | (k', v) :: l' => if String.eqb k k' then Some v else assoc k l'
  end.

(** The exceptions that can leave the handler. *)
Inductive Error : Type :=
| ValidationError (field_names : list string)
| ChecksumMatchError (url expected_checksum actual_checksum : string)
| HTTPError (status : Z)
| ConnectionError
| ClientError
| UnboundLocalError (name : string)
| KeyError (key : string)
| IndexError
| ValueError
| TypeError
| IOError (path : string)
| JarError.

Inductive Result (A : Type) : Type :=
| Ok (a : A)
| Err (e : Error).
Arguments Ok {A} a.
Arguments Err {A} e.

Definition is_ok {A : Type} (r : Result A) : bool :=
  match r with Ok _ => true | Err _ => false end.

Definition rbind {A B : Type} (r : Result A) (f : A -> Result B) : Result B :=
  match r with
  | Ok a => f a
  | Err e => Err e
  end.

(** [requests_hawk.HawkAuth(id=..., key=...)] *)
Record HawkAuth : Type := mkHawkAuth { auth_id : string; auth_key : string }.

(** What the handler reads of a [requests] response. *)
Record Response : Type := mkResponse {
  status_code : Z;
  content_disposition : option string;  (* headers.get('Content-Disposition') *)
  content : string;                     (* the body *)
  json_body : option json               (* the body decoded, when it is JSON *)
}.

(** The calls that leave the process, in the order they are made. *)
Inductive IOEvent : Type :=
| HttpGet (url : string)
| S3Download (bucket key : string)
| HttpPost (url : string) (auth : HawkAuth) (body : json)
| MakeSigned (signature output_file sigpath : string)
| S3Put (bucket key body : string).

(** Everything the handler consults and does not define: the servers, the
    object store, the archive library, the temporary-file name, and the
    regular expression of the schema library's URL validator. *)
Record World : Type := mkWorld {
  url_regex : string -> bool;
  tmp_name : string;
  http_get : string -> option Response;
  s3_object : string -> string -> option string;
  jar_signature : string -> option string;
  http_post : string -> HawkAuth -> json -> option Response;
  jar_make_signed : string -> string -> string -> option string;
  s3_put : string -> string -> string -> bool
}.

(** The state an invocation threads: the calls made so far and the files
    written next to the temporary file. *)
Record State : Type := mkState {
  trace : list IOEvent;
  disk : list (string * string)
}.

Definition initial : State := mkState [] [].

(** ** The monad of the handler: state and exceptions *)

Definition M (A : Type) : Type := State -> Result A * State.

Definition ret {A : Type} (a : A) : M A := fun st => (Ok a, st).

Definition raise {A : Type} (e : Error) : M A := fun st => (Err e, st).

Definition bind {A B : Type} (m : M A) (f : A -> M B) : M B :=
  fun st =>
    match m st with
    | (Ok a, st') => f a st'
    | (Err e, st') => (Err e, st')
    end.

Definition lift {A : Type} (r : Result A) : M A := fun st => (r, st).

Definition emit (ev : IOEvent) : M unit :=
  fun st => (Ok tt, mkState (trace st ++ [ev]) (disk st)).

Definition write_disk (path body : string) : M unit :=
  fun st => (Ok tt, mkState (trace st) ((path, body) :: disk st)).

Definition of_option {A : Type} (o : option A) (e : Error) : M A :=
  match o with
  | Some a => ret a
  | None => raise e
  end.

Declare Scope monad_scope.
Delimit Scope monad_scope with monad.
Notation "x <- m ;; k" := (bind m (fun x => k))
  (at level 61, m at next level, right associativity) : monad_scope.
Notation "' p <- m ;; k" := (bind m (fun x => match x with p => k end))
  (at level 61, p pattern, m at next level, right associativity) : monad_scope.
Notation "m ;;; k" := (bind m (fun _ => k))
  (at level 61, right associativity) : monad_scope.
Open Scope monad_scope.

(** ** Local files *)

(** A file object: its name, its bytes and the position of the next read
    or write. *)
Record LocalFile : Type := mkLocalFile {
  name : string;
  data : string;
  pos : N
}.

(** [tempfile.NamedTemporaryFile()] *)
Definition NamedTemporaryFile (W : World) : LocalFile :=
  mkLocalFile (tmp_name W) EmptyString 0.

(** [f.write(chunk)] *)
Definition write (f : LocalFile) (chunk : string) : LocalFile :=
  mkLocalFile (name f)
    (Py.take (pos f) (data f) ++ chunk
       ++ Py.drop (pos f + Py.len chunk) (data f))
    (pos f + Py.len chunk).

(** [f.seek(0)] *)
Definition seek0 (f : LocalFile) : LocalFile :=
  mkLocalFile (name f) (data f) 0.

(** [f.read()] *)
Definition read (f : LocalFile) : string * LocalFile :=
  (Py.drop (pos f) (data f),
   mkLocalFile (name f) (data f) (N.max (pos f) (Py.len (data f)))).

(** [file(path)]: open a file written earlier in the invocation. *)
Definition file (path : string) : M string :=
  fun st =>
    match assoc path (disk st) with
    | Some body => (Ok body, st)
    | None => (Err (IOError path), st)
    end.

(** ** The schemas: [AutographInfo], [Context], [SourceInfo], [SignEvent] *)

(** One entry of the incoming JSON object, as a string field sees it:
    the key is missing, its value is [null], a string, or a value of
    another type. *)
Inductive RawField : Type :=
| Missing
| Null
| Str (s : string)
| NotStr.

(** The [source] entry: missing, [null], not an object, or an object with
    its [url], [bucket] and [key] entries. *)
Inductive RawSource : Type :=
| SrcMissing
| SrcNull
| SrcNotObject
| SrcObject (url bucket key : RawField).

Record RawEvent : Type := mkRawEvent {
  raw_source : RawSource;
  raw_checksum : RawField
}.

Inductive RawAutograph : Type :=
| AgMissing
| AgNull
| AgNotObject
| AgObject (hawkId hawkSecret serverUrl keyId : RawField).

Record RawContext : Type := mkRawContext {
  raw_autograph : RawAutograph;
  raw_outputBucket : RawField
}.

(** The deserialized data: a dictionary entry that may be absent is an
    [option]. *)
Record SourceData : Type := mkSource {
  src_url : option string;
  src_bucket : option string;
  src_key : option string
}.

Record EventData : Type := mkEvent {
  ev_source : SourceData;
  ev_checksum : option string
}.

Record AutographData : Type := mkAutograph {
  hawk_id : string;
  hawk_secret : string;
  server_url : string;
  key_id : string
}.

Record ContextData : Type := mkContext {
  autograph : AutographData;
  output_bucket : string
}.

(** The outcome of deserializing one field. *)
Inductive Loaded : Type :=
| Absent
| Value (s : string)
| Invalid.

(** [marshmallow.fields.String(required=...)] *)
Definition String_field (required : bool) (r : RawField) : Loaded :=
  match r with
  | Missing => if required then Invalid else Absent
  | Null => Invalid
  | NotStr => Invalid
  | Str s => Value s
  end.

(** [marshmallow.validate.URL]: an empty value is refused before the
    regular expression is tried. *)
Definition url_validate (W : World) (s : string) : bool :=
  (Py.nonempty s && url_regex W s)%bool.

(** [marshmallow.fields.URL()] *)
Definition URL_field (W : World) (r : RawField) : Loaded :=
  match String_field false r with
  | Value s => if url_validate W s then Value s else Invalid
  | l => l
  end.

Definition loaded_value (l : Loaded) : option string :=
  match l with Value s => Some s | _ => None end.

Definition loaded_errors (field : string) (l : Loaded) : list string :=
  match l with Invalid => [field] | _ => [] end.

(** [SourceInfo.verify_either_url_or_s3_info] *)
Definition verify_either_url_or_s3_info (data : SourceData) : Result unit :=
  if Py.truthy (src_url data) then Ok tt
  else if (Py.truthy (src_bucket data) && Py.truthy (src_key data))%bool
  then Ok tt
  else Err (ValidationError ["url"; "bucket"; "key"]).

(** [SourceInfo().load(...)]: the fields that deserialize, and the names
    of the fields in error; the schema validator runs on the fields that
    did deserialize. *)
Definition SourceInfo_load (W : World) (url bucket key : RawField)
  : SourceData * list string :=
  let u := URL_field W url in
  let b := String_field false bucket in
  let k := String_field false key in
  let data := mkSource (loaded_value u) (loaded_value b) (loaded_value k) in
  let schema_errors :=
    match verify_either_url_or_s3_info data with
    | Err (ValidationError fields) => fields
    | _ => []
    end in
  (data,
   (loaded_errors "url" u ++ loaded_errors "bucket" b
      ++ loaded_errors "key" k ++ schema_errors)%list).

(** [SignEvent(strict=True).load(event).data] *)
Definition SignEvent_load (W : World) (event : RawEvent) : Result EventData :=
  let '(source, source_errors) :=
    match raw_source event with
    | SrcObject url bucket key =>
        let '(data, errors) := SourceInfo_load W url bucket key in
        (data, map (fun f => "source." ++ f) errors)
    | _ => (mkSource None None None, ["source"])
    end in
  let c := String_field false (raw_checksum event) in
  match (source_errors ++ loaded_errors "checksum" c)%list with
  | [] => Ok (mkEvent source (loaded_value c))
  | errors => Err (ValidationError errors)
  end.

(** [Context(strict=True).load(context).data] *)
Definition Context_load (context : RawContext) : Result ContextData :=
  let '(ag, ag_errors) :=
    match raw_autograph context with
    | AgObject hawkId hawkSecret serverUrl keyId =>
        let i := String_field true hawkId in
        let s := String_field true hawkSecret in
        let u := String_field true serverUrl in
        let k := String_field true keyId in
        (match i, s, u, k with
         | Value i', Value s', Value u', Value k' =>
             Some (mkAutograph i' s' u' k')
         | _, _, _, _ => None
         end,
         (loaded_errors "autograph.hawkId" i
            ++ loaded_errors "autograph.hawkSecret" s
            ++ loaded_errors "autograph.serverUrl" u
            ++ loaded_errors "autograph.keyId" k)%list)
    | _ => (None, ["autograph"])
    end in
  let b := String_field true (raw_outputBucket context) in
  match ag, b, (ag_errors ++ loaded_errors "outputBucket" b)%list with
  | Some ag', Value b', [] => Ok (mkContext ag' b')
  | _, _, errors => Err (ValidationError errors)
  end.

(** ** The handler *)

Definition CHUNK_SIZE : N := 512 * 1024.

(** [d[k]] on deserialized data. *)
Definition getitem (o : option string) (k : string) : M string :=
  of_option o (KeyError k).

(** Reading a local variable that only one branch assigns. *)
Definition local (o : option string) (x : string) : M string :=
  of_option o (UnboundLocalError x).

(** [(a, b) = l] *)
Definition unpack2 (l : list string) : Result (string * string) :=
  match l with
  | [a; b] => Ok (a, b)
  | _ => Err ValueError
  end.

(** [requests.get(url, stream=True)] *)
Definition requests_get (W : World) (url : string) : M Response :=
  emit (HttpGet url) ;;; of_option (http_get W url) ConnectionError.

(** [requests.post(url, auth=auth, json=body)] *)
Definition requests_post (W : World) (url : string) (auth : HawkAuth)
           (body : json) : M Response :=
  emit (HttpPost url auth body) ;;;
  of_option (http_post W url auth body) ConnectionError.

(** [response.raise_for_status()]: a 4xx or 5xx status raises. *)
Definition raise_for_status (response : Response) : M unit :=
  if ((400 <=? status_code response) && (status_code response <? 600))%Z
  then raise (HTTPError (status_code response))
  else ret tt.

(** [response.iter_content(chunk_size=n)]: the body in pieces of at most
    [n] bytes. *)
Fixpoint chunks (fuel : nat) (n : N) (body : string) : list string :=
  match fuel with
  | O => []
  | S fuel' =>
      if Py.nonempty body
      then Py.take n body :: chunks fuel' n (Py.drop n body)
      else []
  end.

Definition iter_content (response : Response) (chunk_size : N) : list string :=
  chunks (String.length (content response)) chunk_size (content response).

(** [s3.Bucket(bucket).download_fileobj(key, localfile)] *)
Definition download_fileobj (W : World) (bucket key : string)
           (localfile : LocalFile) : M LocalFile :=
  emit (S3Download bucket key) ;;;
  body <- of_option (s3_object W bucket key) ClientError ;;
  ret (write localfile body).

(** [s3.Bucket(bucket).put_object(Body=body, Key=key)] *)
Definition put_object (W : World) (bucket body key : string) : M unit :=
  emit (S3Put bucket key body) ;;;
  if s3_put W bucket key body then ret tt else raise ClientError.

(** The loop of [extract_response_filename] over the parameters after
    the first. *)
Fixpoint filename_parameter (parameters : list string)
  : Result (option string) :=
  match parameters with
  | [] => Ok None
  | parameter :: rest =>
      rbind (unpack2 (Py.split1 "=" (Py.strip parameter)))
        (fun '(name, value) =>
           if String.eqb name "filename"
           then Ok (Some (Rfc822.unquote value))
           else filename_parameter rest)
  end.

(** [extract_response_filename(response)] *)
Definition extract_response_filename (response : Response)
  : Result (option string) :=
  match content_disposition response with
  | None => Ok None
  | Some content_disposition =>
      if negb (Py.nonempty content_disposition) then Ok None
      else
        let parameters := Py.split ";" content_disposition in
        if negb (String.eqb (Py.strip (hd EmptyString parameters))
                            "attachment")
        then Ok None
        else filename_parameter (tl parameters)
  end.

(** [compute_checksum(contents)] *)
Definition compute_checksum (contents : LocalFile) : string * LocalFile :=
  let '(bytes, contents) := read contents in
  (SHA256.hexdigest bytes, contents).

(** [get_guid(xpi_file)] *)
Definition get_guid (xpi_file : LocalFile) : string :=
  "some-fake-guid@example.com".

(** [upload(context, signed_xpi, filename)] *)
Record UploadResult : Type := mkUploaded {
  uploaded_bucket : string;
  uploaded_key : string
}.

Definition upload (W : World) (context : ContextData) (signed_xpi : string)
           (filename : string) : M UploadResult :=
  let bucket := output_bucket context in
  put_object W bucket signed_xpi filename ;;;
  ret (mkUploaded bucket filename).

(** [retrieve_xpi], lines 111-126: the download into the temporary file.
    The first component is the local variable [url], which only the URL
    branch assigns. *)
Definition retrieve_xpi_download (W : World) (event : EventData)
  : M (option string * string * LocalFile) :=
  let localfile := NamedTemporaryFile W in
  let source := ev_source event in
  if Py.truthy (src_url source) then
    url <- getitem (src_url source) "url" ;;
    response <- requests_get W url ;;
    raise_for_status response ;;;
    '(_, filename) <- lift (unpack2 (Py.rsplit1 "/" (Py.strip_char "/" url))) ;;
    header_filename <- lift (extract_response_filename response) ;;
    let filename := Py.or_else header_filename filename in
    let localfile := fold_left write (iter_content response CHUNK_SIZE)
                               localfile in
    ret (Some url, filename, localfile)
  else
    bucket <- getitem (src_bucket source) "bucket" ;;
    key <- getitem (src_key source) "key" ;;
    '(_, filename) <- lift (unpack2 (Py.rsplit1 "/" key)) ;;
    localfile <- download_fileobj W bucket key localfile ;;
    ret (None, filename, localfile).

(** [retrieve_xpi], lines 128-134: the checksum of what was downloaded
    against the checksum of the event. *)
Definition retrieve_xpi_verify (event : EventData) (url : option string)
           (filename : string) (localfile : LocalFile)
  : M (LocalFile * string) :=
  let localfile := seek0 localfile in
  let '(local_checksum, localfile) := compute_checksum localfile in
  expected <- getitem (ev_checksum event) "checksum" ;;
  if negb (String.eqb local_checksum expected) then
    url <- local url "url" ;;
    raise (ChecksumMatchError url expected local_checksum)
  else
    let localfile := seek0 localfile in
    ret (localfile, filename).

(** [retrieve_xpi(event)] *)
Definition retrieve_xpi (W : World) (event : EventData)
  : M (LocalFile * string) :=
  '(url, filename, localfile) <- retrieve_xpi_download W event ;;
  retrieve_xpi_verify event url filename localfile.

(** [resp.json()[0]['signature']] *)
Definition first_signature (resp : Response) : Result json :=
  match json_body resp with
  | None => Err ValueError
  | Some (JArr (first :: _)) =>
      match first with
      | JObj o =>
          match assoc "signature" o with
          | Some v => Ok v
          | None => Err (KeyError "signature")
          end
      | _ => Err TypeError
      end
  | Some (JArr []) => Err IndexError
  | Some (JObj _) => Err (KeyError "0")
  | Some (JStr s) => if Py.nonempty s then Err TypeError else Err IndexError
  | Some _ => Err TypeError
  end.

(** [base64.b64decode(v)] on a decoded JSON value. *)
Definition b64decode_value (v : json) : Result string :=
  match v with
  | JStr s =>
      match Base64.b64decode s with
      | Some b => Ok b
      | None => Err TypeError
      end
  | _ => Err TypeError
  end.

(** [jar_extractor.make_signed(signature, output_file, sigpath=...)] *)
Definition make_signed (W : World) (localfile : LocalFile)
           (signature output_file sigpath : string) : M unit :=
  emit (MakeSigned signature output_file sigpath) ;;;
  signed <- of_option (jar_make_signed W (data localfile) signature sigpath)
                      JarError ;;
  write_disk output_file signed.

(** [sign_xpi(autograph_info, localfile, guid)] *)
Definition sign_xpi (W : World) (autograph_info : AutographData)
           (localfile : LocalFile) (guid : string) : M string :=
  jar_extractor_signature <-
    of_option (jar_signature W (data localfile)) JarError ;;
  let auth := mkHawkAuth (hawk_id autograph_info)
                         (hawk_secret autograph_info) in
  let b64_payload := Base64.b64encode jar_extractor_signature in
  url <- of_option (UrlParse.urljoin (server_url autograph_info) "/sign/data")
                   ValueError ;;
  let key_id := key_id autograph_info in
  resp <- requests_post W url auth
            (JArr [JObj [("input", JStr b64_payload);
                         ("keyid", JStr key_id);
                         ("options", JObj [("id", JStr guid)])]]) ;;
  raise_for_status resp ;;;
  encoded <- lift (first_signature resp) ;;
  signature <- lift (b64decode_value encoded) ;;
  let '(localstem, localext) := PosixPath.splitext (name localfile) in
  let output_file := localstem ++ "-signed" ++ localext in
  make_signed W localfile signature output_file "mozilla.rsa" ;;;
  ret output_file.

(** [handle(event, context)] *)
Definition handle_m (W : World) (event : RawEvent) (context : RawContext)
  : M UploadResult :=
  event <- lift (SignEvent_load W event) ;;
  context <- lift (Context_load context) ;;
  '(localfile, filename) <- retrieve_xpi W event ;;
  let guid := get_guid localfile in
  signed_xpi <- sign_xpi W (autograph context) localfile guid ;;
  body <- file signed_xpi ;;
  upload W context body filename.

(** One invocation, from a fresh state. *)
Definition handle (W : World) (event : RawEvent) (context : RawContext)
  : Result UploadResult * State :=
  handle_m W event context initial.

(** ** Vocabulary of the properties *)

(** The calls of the signing, packaging and publishing stages. *)
Definition signing_stage (ev : IOEvent) : bool :=
  match ev with
  | HttpPost _ _ _ | MakeSigned _ _ _ | S3Put _ _ _ => true
  | HttpGet _ | S3Download _ _ => false
  end.

Definition is_post (ev : IOEvent) : bool :=
  match ev with HttpPost _ _ _ => true | _ => false end.

(** The calls to the package signer and to the publisher. *)
Definition after_signing (ev : IOEvent) : bool :=
  match ev with MakeSigned _ _ _ | S3Put _ _ _ => true | _ => false end.

Definition is_s3_download (ev : IOEvent) : bool :=
  match ev with S3Download _ _ => true | _ => false end.

(** The bytes the source of an event designates in a world. *)
Definition fetched (W : World) (event : EventData) : option string :=
  let source := ev_source event in
  if Py.truthy (src_url source) then
    match src_url source with
    | Some u => option_map content (http_get W u)
    | None => None
    end
  else
    match src_bucket source, src_key source with
    | Some b, Some k => s3_object W b k
    | _, _ => None
    end.

(** Exactly one of the two variants of a source is populated. *)
Definition exactly_one_variant (d : SourceData) : bool :=
  xorb (Py.truthy (src_url d))
       (Py.truthy (src_bucket d) && Py.truthy (src_key d)).

(** Equality of two strings up to the case of their letters. *)
Definition eq_nocase (a b : string) : bool :=
  String.eqb (Py.lower a) (Py.lower b).

(** [2xx] *)
Definition is_2xx (status : Z) : bool :=
  ((200 <=? status) && (status <? 300))%Z.

(** The body of the signing request. *)
Definition sign_request (b64_payload key_id guid : string) : json :=
  JArr [JObj [("input", JStr b64_payload);
              ("keyid", JStr key_id);
              ("options", JObj [("id", JStr guid)])]].

(** A file whose position is at its end. *)
Definition at_end (f : LocalFile) : Prop := pos f = Py.len (data f).

(** The name [sign_xpi] gives the signed file: [-signed] before the
    extension of the path it is given. *)
Definition signed_name (path : string) : string :=
  let '(stem, ext) := PosixPath.splitext path in
  stem ++ "-signed" ++ ext.

(** The state after one more call. *)
Definition push (ev : IOEvent) (st : State) : State :=
  mkState (trace st ++ [ev]) (disk st).

(** What the handler does once retrieval has returned. *)
Definition after_retrieve (W : World) (context : ContextData)
           (localfile : LocalFile) (filename : string) (st1 : State)
  : Result UploadResult * State :=
  match sign_xpi W (autograph context) localfile (get_guid localfile) st1 with
  | (Err err, st2) => (Err err, st2)
  | (Ok signed_xpi, st2) =>
      match file signed_xpi st2 with
      | (Err err, st3) => (Err err, st3)
      | (Ok body, st3) => upload W context body filename st3
      end
  end.

(** A state in which no call of the signing, packaging or publishing
    stages has been made. *)
Definition quiet (st : State) : Prop :=
  forall ev, In ev (trace st) -> signing_stage ev = false.

(** [url] is [base] followed by [path], a trailing [/] of [base] merging
    with the leading one of [path]. *)
Definition extended_with (base path url : string) : bool :=
  (String.eqb url (base ++ path)
   || String.eqb url (Py.rstrip (Ascii.eqb "/") base ++ path))%bool.

(** An entry of the incoming object that holds a non-empty string. *)
Definition populated (r : RawField) : bool :=
  match r with Str s => Py.nonempty s | _ => false end.

(** An entry that a string field accepts: absent, or a string. *)
Definition string_entry (r : RawField) : bool :=
  match r with Missing | Str _ => true | Null | NotStr => false end.

(** An entry that the URL field accepts: absent, or a string the URL
    validator takes. *)
Definition url_entry (W : World) (r : RawField) : bool :=
  match r with
  | Missing => true
  | Str s => url_validate W s
  | Null | NotStr => false
  end.

(** No field is in error. *)
Definition no_errors (l : list string) : bool :=
  match l with [] => true | _ :: _ => false end.

(** The stage a call belongs to: retrieval, signing request, packaging,
    upload. *)
Definition stage (ev : IOEvent) : nat :=
  match ev with
  | HttpGet _ | S3Download _ _ => 0
  | HttpPost _ _ _ => 1
  | MakeSigned _ _ _ => 2
  | S3Put _ _ _ => 3
  end.

(** A lowercase hexadecimal digit. *)
Definition lower_hex (c : ascii) : bool :=
  let n := N_of_ascii c in
  ((N.leb 48 n && N.leb n 57) || (N.leb 97 n && N.leb n 102))%bool.

(** A call with the credentials of its authentication blanked. *)
Definition redact (ev : IOEvent) : IOEvent :=
  match ev with
  | HttpPost u _ b => HttpPost u (mkHawkAuth EmptyString EmptyString) b
  | _ => ev
  end.

(** ** A world to run the handler in

    One package, served at one URL and stored under one key; a signing
    service that answers every request with the same signature. *)

Definition fixture_url : string := "https://example.com/addons/a.xpi".
Definition fixture_bytes : string := "PK-fixture-bytes".
Definition fixture_sha256 : string :=
  "35e668fc0e3898344c95ff49107d30d801a7088228055324e96bbbb068d43a7a".

Definition example_world (header : option string) (sign_status : Z) : World :=
  {| url_regex := fun u => String.eqb u fixture_url;
     tmp_name := "/tmp/tmpk3Zl9f";
     http_get := fun u =>
       if String.eqb u fixture_url
       then Some (mkResponse 200 header fixture_bytes None)
       else None;
     s3_object := fun b k =>
       if (String.eqb b "incoming"
           && (String.eqb k "addons/a.xpi" || String.eqb k "a.xpi"))%bool
       then Some fixture_bytes else None;
     jar_signature := fun _ => Some "sf-digest";
     http_post := fun _ _ _ =>
       Some (mkResponse sign_status None EmptyString
               (Some (JArr [JObj [("signature", JStr "c2lnbmF0dXJl")]])));
     jar_make_signed := fun d s _ => Some (d ++ s);
     s3_put := fun _ _ _ => true |}.

Definition example_context : RawContext :=
  mkRawContext
    (AgObject (Str "alice") (Str "secret")
              (Str "https://autograph.example.com/api/")
              (Str "extensions-ecdsa"))
    (Str "signed-addons").

Definition url_event (checksum : RawField) : RawEvent :=
  mkRawEvent (SrcObject (Str fixture_url) Missing Missing) checksum.

Definition s3_event (key : string) (checksum : RawField) : RawEvent :=
  mkRawEvent (SrcObject Missing (Str "incoming") (Str key)) checksum.

Definition both_event (checksum : RawField) : RawEvent :=
  mkRawEvent (SrcObject (Str fixture_url) (Str "incoming") (Str "other.xpi"))
             checksum.

(** The digest of the fixture in capital letters. *)
Definition fixture_sha256_upper : string :=
  "35E668FC0E3898344C95FF49107D30D801A7088228055324E96BBBB068D43A7A".

(** The digest of the fixture with its last digit changed. *)
Definition fixture_sha256_off : string :=
  "35e668fc0e3898344c95ff49107d30d801a7088228055324e96bbbb068d43a7b".

(** [s] between double quotes. *)
Definition quoted (s : string) : string :=
  String Rfc822.dquote (s ++ String Rfc822.dquote EmptyString).

(** ** The library models on known values *)

Example hexdigest_empty :
  SHA256.hexdigest EmptyString =
  "e3b0c44298fc1c149afbf4c8996fb92427ae41e4649b934ca495991b7852b855".
Proof. vm_compute. reflexivity. Qed.

Example hexdigest_abc :
  SHA256.hexdigest "abc" =
  "ba7816bf8f01cfea414140de5dae2223b00361a396177a9cb410ff61f20015ad".
Proof. vm_compute. reflexivity. Qed.

Example hexdigest_two_blocks :
  SHA256.hexdigest "abcdbcdecdefdefgefghfghighijhijkijkljklmklmnlmnomnopnopq" =
  "248d6a61d20638b8e5c026930c3e6039a33ce45964ff2167f6ecedd419db06c1".
Proof. vm_compute. reflexivity. Qed.

Example b64encode_foobar : Base64.b64encode "foobar" = "Zm9vYmFy".
Proof. reflexivity. Qed.

Example b64encode_pad : Base64.b64encode "fooba" = "Zm9vYmE=".
Proof. reflexivity. Qed.

Example b64decode_pad : Base64.b64decode "Zm9vYg==" = Some "foob".
Proof. reflexivity. Qed.

Example b64decode_lenient : Base64.b64decode "Zm9v YmE=*" = Some "fooba".
Proof. reflexivity. Qed.

Example b64decode_bad_padding : Base64.b64decode "Zm9vY" = None.
Proof. reflexivity. Qed.

Example urljoin_root :
  UrlParse.urljoin "http://localhost:8000/" "/sign/data"
  = Some "http://localhost:8000/sign/data".
Proof. reflexivity. Qed.

Example urljoin_relative :
  UrlParse.urljoin "http://www.cwi.nl/%7Eguido/Python.html" "FAQ.html"
  = Some "http://www.cwi.nl/%7Eguido/FAQ.html".
Proof. reflexivity. Qed.

Example urljoin_dotdot :
  UrlParse.urljoin "http://a/b/c/d;p?q" "../g" = Some "http://a/b/g".
Proof. reflexivity. Qed.

Example urljoin_host_only :
  UrlParse.urljoin "http://www.cwi.nl/%7Eguido/Python.html" "//www.python.org/%7Eguido"
  = Some "http://www.python.org/%7Eguido".
Proof. reflexivity. Qed.

Example splitext_xpi : PosixPath.splitext "bar.xpi" = ("bar", ".xpi").
Proof. reflexivity. Qed.

Example splitext_tmp : PosixPath.splitext "/tmp/tmpk3Zl9f" = ("/tmp/tmpk3Zl9f", EmptyString).
Proof. reflexivity. Qed.

Example splitext_dotfile :
  PosixPath.splitext "/a.b/.profile" = ("/a.b/.profile", EmptyString).
Proof. reflexivity. Qed.

Example splitext_two : PosixPath.splitext "/a.b/c.tar.gz" = ("/a.b/c.tar", ".gz").
Proof. reflexivity. Qed.

(** ** Lemmas on strings and files *)

Lemma append_empty_r (s : string) : s ++ EmptyString = s.
Proof. induction s as [|c s IH]; simpl; [reflexivity | now rewrite IH]. Qed.

Lemma append_assoc (a b c : string) : (a ++ b) ++ c = a ++ (b ++ c).
Proof. induction a as [|x a IH]; simpl; [reflexivity | now rewrite IH]. Qed.

Lemma len_String (c : ascii) (s : string) :
  Py.len (String c s) = N.succ (Py.len s).
Proof. unfold Py.len; simpl String.length. now rewrite Nat2N.inj_succ. Qed.

Lemma len_append (a b : string) : Py.len (a ++ b) = (Py.len a + Py.len b)%N.
Proof.
  induction a as [|x a IH].
  - reflexivity.
  - simpl append. rewrite !len_String, IH. lia.
Qed.

Lemma drop_0 (s : string) : Py.drop 0 s = s.
Proof. destruct s; reflexivity. Qed.

Lemma take_drop (s : string) : forall n, Py.take n s ++ Py.drop n s = s.
Proof.
  induction s as [|c s IH]; intro n; simpl.
  - reflexivity.
  - destruct (N.eqb n 0); simpl; [reflexivity | now rewrite IH].
Qed.

Lemma take_all (s : string) : forall n, (Py.len s <= n)%N -> Py.take n s = s.
Proof.
  induction s as [|c s IH]; intros n Hn; simpl.
  - reflexivity.
  - rewrite len_String in Hn.
    destruct (N.eqb_spec n 0) as [E|E]; [lia|].
    rewrite IH; [reflexivity | lia].
Qed.

Lemma drop_all (s : string) :
  forall n, (Py.len s <= n)%N -> Py.drop n s = EmptyString.
Proof.
  induction s as [|c s IH]; intros n Hn; simpl.
  - reflexivity.
  - rewrite len_String in Hn.
    destruct (N.eqb_spec n 0) as [E|E]; [lia|].
    apply IH; lia.
Qed.

Lemma drop_length_le (s : string) :
  forall n, String.length (Py.drop n s) <= String.length s.
Proof.
  induction s as [|c s IH]; intro n; simpl.
  - lia.
  - destruct (N.eqb n 0); simpl; [lia|].
    specialize (IH (N.pred n)). lia.
Qed.

(** The pieces [iter_content] yields make up the body. *)
Lemma chunks_concat (n : N) :
  n <> 0%N ->
  forall fuel body,
    String.length body <= fuel ->
    String.concat EmptyString (chunks fuel n body) = body.
Proof.
  intros Hn fuel; induction fuel as [|fuel IH]; intros body Hlen.
  - destruct body; simpl in *; [reflexivity | lia].
  - destruct body as [|c body]; [reflexivity|].
    cbn [chunks Py.nonempty].
    assert (Hrest : String.length (Py.drop n (String c body)) <= fuel).
    { simpl. destruct (N.eqb_spec n 0) as [E|E]; [contradiction|].
      pose proof (drop_length_le body (N.pred n)). simpl in Hlen. lia. }
    specialize (IH _ Hrest).
    remember (Py.drop n (String c body)) as rest eqn:Erest.
    remember (Py.take n (String c body)) as piece eqn:Epiece.
    assert (Hsplit : piece ++ rest = String c body)
      by (subst; apply take_drop).
    destruct (chunks fuel n rest) as [|x l] eqn:El.
    + simpl in *. rewrite <- IH in Hsplit. now rewrite append_empty_r in Hsplit.
    + change (String.concat EmptyString (piece :: x :: l))
        with (piece ++ EmptyString ++ String.concat EmptyString (x :: l)).
      rewrite IH. exact Hsplit.
Qed.

Lemma write_at_end (f : LocalFile) (chunk : string) :
  at_end f ->
  at_end (write f chunk) /\ data (write f chunk) = data f ++ chunk
  /\ name (write f chunk) = name f.
Proof.
  unfold at_end, write; intros E; simpl.
  rewrite E, take_all, drop_all by lia.
  rewrite append_empty_r, len_append. auto.
Qed.

Lemma fold_write (l : list string) :
  forall f,
    at_end f ->
    data (fold_left write l f) = data f ++ String.concat EmptyString l
    /\ name (fold_left write l f) = name f.
Proof.
  induction l as [|x l IH]; intros f Hf; simpl.
  - now rewrite append_empty_r.
  - destruct (write_at_end f x Hf) as (He & Hd & Hn).
    destruct (IH _ He) as (IHd & IHn).
    rewrite IHd, IHn, Hd, Hn, append_assoc. split; [|reflexivity].
    f_equal. destruct l; simpl; [now rewrite append_empty_r | reflexivity].
Qed.

(** ** Lemmas on the stages of the pipeline *)

Ltac unfold_io :=
  unfold requests_get, requests_post, raise_for_status, download_fileobj,
    put_object, make_signed, getitem, local, file, write_disk in *;
  unfold of_option in *;
  unfold bind, ret, raise, lift, emit in *.

Ltac split_match_hyp H :=
  repeat match type of H with
         | context [match ?x with _ => _ end] => destruct x eqn:?
         | context [if ?b then _ else _] => destruct b eqn:?
         end.

Ltac split_match_goal :=
  repeat match goal with
         | |- context [match ?x with _ => _ end] => destruct x eqn:?
         | |- context [if ?b then _ else _] => destruct b eqn:?
         end.

Lemma CHUNK_SIZE_nonzero : CHUNK_SIZE <> 0%N.
Proof. discriminate. Qed.

(** The temporary file after the streamed download holds the body. *)
Lemma streamed_file (W : World) (response : Response) :
  let f := fold_left write (iter_content response CHUNK_SIZE)
                     (NamedTemporaryFile W) in
  data f = content response /\ name f = tmp_name W.
Proof.
  intro f. subst f.
  destruct (fold_write (iter_content response CHUNK_SIZE)
                       (NamedTemporaryFile W) eq_refl) as (Hd & Hn).
  rewrite Hd, Hn. split; [|reflexivity].
  unfold iter_content. simpl data. simpl append.
  apply chunks_concat; [apply CHUNK_SIZE_nonzero | apply le_n].
Qed.

(** The temporary file after [download_fileobj] holds the object. *)
Lemma downloaded_file (W : World) (body : string) :
  data (write (NamedTemporaryFile W) body) = body
  /\ name (write (NamedTemporaryFile W) body) = tmp_name W.
Proof.
  destruct (write_at_end (NamedTemporaryFile W) body eq_refl) as (_ & Hd & Hn).
  rewrite Hd, Hn. split; reflexivity.
Qed.

(** What the download stage does to the state, and what it returns. *)
Lemma retrieve_xpi_download_spec (W : World) (event : EventData)
      (st st' : State) (r : Result (option string * string * LocalFile)) :
  retrieve_xpi_download W event st = (r, st') ->
  disk st' = disk st
  /\ (trace st' = trace st
      \/ exists ev, trace st' = (trace st ++ [ev])%list /\ signing_stage ev = false)
  /\ forall url filename localfile,
      r = Ok (url, filename, localfile) ->
      fetched W event = Some (data localfile)
      /\ name localfile = tmp_name W
      /\ url = (if Py.truthy (src_url (ev_source event))
                then src_url (ev_source event) else None).
Proof.
  unfold retrieve_xpi_download, fetched.
  destruct (Py.truthy (src_url (ev_source event))) eqn:Hurl; intro H.
  - destruct (src_url (ev_source event)) as [u|] eqn:Eu; [|discriminate Hurl].
    unfold_io. simpl in H.
    destruct (http_get W u) as [response|] eqn:Eget.
    + destruct ((400 <=? status_code response)
                && (status_code response <? 600))%Z.
      * inversion H; subst; simpl. repeat split; eauto; discriminate.
      * destruct (unpack2 (Py.rsplit1 "/" (Py.strip_char "/" u)))
          as [[a fn]|err]; simpl in H.
        -- destruct (extract_response_filename response) as [hf|err].
           ++ inversion H; subst; simpl.
              destruct (streamed_file W response) as (Hd & Hn).
              split; [reflexivity|].
              split; [right; eexists; split; reflexivity|].
              intros ? ? ? E; inversion E; subst.
              rewrite Hd, Hn; auto.
           ++ inversion H; subst; simpl. repeat split; eauto; discriminate.
        -- inversion H; subst; simpl. repeat split; eauto; discriminate.
    + inversion H; subst; simpl. repeat split; eauto; discriminate.
  - unfold_io.
    destruct (src_bucket (ev_source event)) as [b|];
      [|inversion H; subst; repeat split; auto; discriminate].
    destruct (src_key (ev_source event)) as [k|];
      [|inversion H; subst; repeat split; auto; discriminate].
    simpl in H.
    destruct (unpack2 (Py.rsplit1 "/" k)) as [[a fn]|err]; simpl in H;
      [|inversion H; subst; repeat split; auto; discriminate].
    destruct (s3_object W b k) as [body|] eqn:Eobj.
    + inversion H; subst; simpl.
      destruct (downloaded_file W body) as (Hd & Hn).
      split; [reflexivity|].
      split; [right; eexists; split; reflexivity|].
      intros ? ? ? E; inversion E; subst.
      rewrite Hd, Hn; auto.
    + inversion H; subst; simpl. repeat split; eauto; discriminate.
Qed.

(** The check stage as an equation: it leaves the state alone. *)
Lemma retrieve_xpi_verify_eq (event : EventData) (url : option string)
      (filename : string) (localfile : LocalFile) (st : State) :
  retrieve_xpi_verify event url filename localfile st =
  (match ev_checksum event with
   | None => Err (KeyError "checksum")
   | Some expected =>
       if String.eqb (SHA256.hexdigest (data localfile)) expected
       then Ok (mkLocalFile (name localfile) (data localfile) 0, filename)
       else match url with
            | Some u =>
                Err (ChecksumMatchError u expected
                       (SHA256.hexdigest (data localfile)))
            | None => Err (UnboundLocalError "url")
            end
   end, st).
Proof.
  unfold retrieve_xpi_verify, compute_checksum, read, seek0.
  cbn [pos data name]. rewrite drop_0. unfold_io.
  destruct (ev_checksum event) as [expected|]; [|reflexivity].
  destruct (String.eqb (SHA256.hexdigest (data localfile)) expected);
    simpl; [reflexivity|].
  destruct url; reflexivity.
Qed.

(** Retrieval makes no call of a later stage, and when it returns, the
    checksum of the event is the digest of the bytes it fetched. *)
Lemma retrieve_xpi_spec (W : World) (event : EventData) (st st' : State)
      (r : Result (LocalFile * string)) :
  retrieve_xpi W event st = (r, st') ->
  disk st' = disk st
  /\ (trace st' = trace st
      \/ exists ev, trace st' = (trace st ++ [ev])%list /\ signing_stage ev = false)
  /\ forall localfile filename,
      r = Ok (localfile, filename) ->
      fetched W event = Some (data localfile)
      /\ ev_checksum event = Some (SHA256.hexdigest (data localfile))
      /\ name localfile = tmp_name W.
Proof.
  unfold retrieve_xpi, bind.
  destruct (retrieve_xpi_download W event st) as [[[[u fn] lf]|err] st1] eqn:Ed;
    intro H.
  - destruct (retrieve_xpi_download_spec _ _ _ _ _ Ed) as (Hdisk & Htr & Hok).
    rewrite retrieve_xpi_verify_eq in H. inversion H; subst; clear H.
    split; [exact Hdisk|]. split; [exact Htr|].
    intros localfile filename E.
    destruct (Hok u fn lf eq_refl) as (Hf & Hn & _).
    destruct (ev_checksum event) as [expected|]; [|discriminate].
    destruct (String.eqb_spec (SHA256.hexdigest (data lf)) expected) as [Heq|Hne].
    + inversion E; subst; simpl. auto.
    + destruct u; discriminate.
  - destruct (retrieve_xpi_download_spec _ _ _ _ _ Ed) as (Hdisk & Htr & _).
    inversion H; subst. split; [exact Hdisk|]. split; [exact Htr|].
    intros ? ? E; discriminate E.
Qed.

(** The signing stage as a table of its outcomes. *)
Lemma sign_xpi_eq (W : World) (ag : AutographData) (lf : LocalFile)
      (guid : string) (st : State) :
  sign_xpi W ag lf guid st =
  match jar_signature W (data lf) with
  | None => (Err JarError, st)
  | Some sig =>
      match UrlParse.urljoin (server_url ag) "/sign/data" with
      | None => (Err ValueError, st)
      | Some url =>
          let auth := mkHawkAuth (hawk_id ag) (hawk_secret ag) in
          let body := sign_request (Base64.b64encode sig) (key_id ag) guid in
          let st1 := push (HttpPost url auth body) st in
          match http_post W url auth body with
          | None => (Err ConnectionError, st1)
          | Some resp =>
              if ((400 <=? status_code resp) && (status_code resp <? 600))%Z
              then (Err (HTTPError (status_code resp)), st1)
              else
                match first_signature resp with
                | Err err => (Err err, st1)
                | Ok v =>
                    match b64decode_value v with
                    | Err err => (Err err, st1)
                    | Ok s =>
                        let out := signed_name (name lf) in
                        let st2 := push (MakeSigned s out "mozilla.rsa") st1 in
                        match jar_make_signed W (data lf) s "mozilla.rsa" with
                        | None => (Err JarError, st2)
                        | Some signed =>
                            (Ok out,
                             mkState (trace st2) ((out, signed) :: disk st2))
                        end
                    end
                end
          end
      end
  end.
Proof.
  unfold sign_xpi, signed_name, sign_request, push. unfold_io.
  destruct (jar_signature W (data lf)) as [sig|]; [|reflexivity].
  destruct (UrlParse.urljoin (server_url ag) "/sign/data") as [url|];
    [|reflexivity].
  cbv beta iota zeta.
  destruct (http_post W url _ _) as [resp|]; [|reflexivity].
  destruct ((400 <=? status_code resp) && (status_code resp <? 600))%Z;
    [reflexivity|].
  destruct (first_signature resp) as [v|err]; [|reflexivity].
  destruct (b64decode_value v) as [s|err]; [|reflexivity].
  destruct (PosixPath.splitext (name lf)) as [stem ext].
  cbv beta iota zeta.
  destruct (jar_make_signed W (data lf) s "mozilla.rsa"); reflexivity.
Qed.

Lemma assoc_head {A : Type} (k : string) (v : A) (l : list (string * A)) :
  assoc k ((k, v) :: l) = Some v.
Proof. simpl. now rewrite String.eqb_refl. Qed.

Lemma In_push (ev ev' : IOEvent) (st : State) :
  In ev (trace (push ev' st)) <-> In ev (trace st) \/ ev = ev'.
Proof.
  unfold push; simpl. rewrite in_app_iff. simpl. intuition.
Qed.

(** The handler as a cascade of its stages. *)
Lemma handle_stages (W : World) (e : RawEvent) (c : RawContext) :
  handle W e c =
  match SignEvent_load W e with
  | Err err => (Err err, initial)
  | Ok event =>
      match Context_load c with
      | Err err => (Err err, initial)
      | Ok context =>
          match retrieve_xpi W event initial with
          | (Err err, st1) => (Err err, st1)
          | (Ok (localfile, filename), st1) =>
              after_retrieve W context localfile filename st1
          end
      end
  end.
Proof.
  unfold handle, handle_m, after_retrieve, bind, lift.
  destruct (SignEvent_load W e); [|reflexivity].
  destruct (Context_load c); [|reflexivity].
  destruct (retrieve_xpi W a initial) as [[[lf fn]|err] st1]; reflexivity.
Qed.

(** The signing, packaging and publishing stages as a table of their
    outcomes. *)
Lemma after_retrieve_eq (W : World) (context : ContextData) (lf : LocalFile)
      (filename : string) (st1 : State) :
  after_retrieve W context lf filename st1 =
  match jar_signature W (data lf) with
  | None => (Err JarError, st1)
  | Some sig =>
      match UrlParse.urljoin (server_url (autograph context)) "/sign/data" with
      | None => (Err ValueError, st1)
      | Some url =>
          let auth := mkHawkAuth (hawk_id (autograph context))
                                 (hawk_secret (autograph context)) in
          let body := sign_request (Base64.b64encode sig)
                                   (key_id (autograph context))
                                   (get_guid lf) in
          let st2 := push (HttpPost url auth body) st1 in
          match http_post W url auth body with
          | None => (Err ConnectionError, st2)
          | Some resp =>
              if ((400 <=? status_code resp) && (status_code resp <? 600))%Z
              then (Err (HTTPError (status_code resp)), st2)
              else
                match first_signature resp with
                | Err err => (Err err, st2)
                | Ok v =>
                    match b64decode_value v with
                    | Err err => (Err err, st2)
                    | Ok s =>
                        let out := signed_name (name lf) in
                        let st3 := push (MakeSigned s out "mozilla.rsa") st2 in
                        match jar_make_signed W (data lf) s "mozilla.rsa" with
                        | None => (Err JarError, st3)
                        | Some signed =>
                            (if s3_put W (output_bucket context) filename signed
                             then Ok (mkUploaded (output_bucket context)
                                                 filename)
                             else Err ClientError,
                             mkState
                               (trace st3
                                  ++ [S3Put (output_bucket context) filename
                                            signed])%list
                               ((out, signed) :: disk st1))
                        end
                    end
                end
          end
      end
  end.
Proof.
  unfold after_retrieve. rewrite sign_xpi_eq.
  destruct (jar_signature W (data lf)) as [sig|]; [|reflexivity].
  destruct (UrlParse.urljoin _ _) as [url|]; [|reflexivity].
  cbv zeta.
  destruct (http_post W url _ _) as [resp|]; [|reflexivity].
  destruct ((400 <=? status_code resp) && (status_code resp <? 600))%Z;
    [reflexivity|].
  destruct (first_signature resp) as [v|err]; [|reflexivity].
  destruct (b64decode_value v) as [s|err]; [|reflexivity].
  destruct (jar_make_signed W (data lf) s "mozilla.rsa") as [signed|];
    [|reflexivity].
  unfold file, upload, put_object, bind, emit, ret, raise.
  cbn [disk trace]. rewrite assoc_head. cbn [disk trace push].
  destruct (s3_put W (output_bucket context) filename signed); reflexivity.
Qed.

Lemma quiet_initial : quiet initial.
Proof. intros ev []. Qed.

Lemma retrieve_xpi_quiet (W : World) (event : EventData) (st1 : State)
      (r : Result (LocalFile * string)) :
  retrieve_xpi W event initial = (r, st1) -> quiet st1.
Proof.
  intros H ev Hin.
  destruct (retrieve_xpi_spec _ _ _ _ _ H) as (_ & [E | (ev0 & E & Hev0)] & _);
    rewrite E in Hin; simpl in Hin.
  - contradiction.
  - destruct Hin as [<- | []]. exact Hev0.
Qed.

Lemma quiet_not_signing (st : State) (ev : IOEvent) :
  quiet st -> In ev (trace st) -> signing_stage ev = true -> False.
Proof. intros Hq Hin Hs. rewrite (Hq _ Hin) in Hs. discriminate. Qed.

Lemma after_signing_stage (ev : IOEvent) :
  signing_stage ev = false -> after_signing ev = false.
Proof. destruct ev; simpl; congruence. Qed.

Lemma status_4xx_5xx (status : Z) :
  (400 <= status < 600)%Z <->
  ((400 <=? status) && (status <? 600))%Z = true.
Proof. rewrite andb_true_iff, Z.leb_le, Z.ltb_lt. tauto. Qed.

(** Calls of the later stages are only made after retrieval returned. *)
Lemma signing_stage_inv (W : World) (e : RawEvent) (c : RawContext)
      (ev : IOEvent) :
  In ev (trace (snd (handle W e c))) ->
  signing_stage ev = true ->
  exists event context lf filename st1,
    SignEvent_load W e = Ok event
    /\ Context_load c = Ok context
    /\ retrieve_xpi W event initial = (Ok (lf, filename), st1)
    /\ handle W e c = after_retrieve W context lf filename st1.
Proof.
  rewrite handle_stages.
  destruct (SignEvent_load W e) as [event|err]; [|intros []].
  destruct (Context_load c) as [context|err]; [|intros []].
  destruct (retrieve_xpi W event initial) as [[[lf fn]|err] st1] eqn:Er.
  - intros _ _. exists event, context, lf, fn, st1. auto.
  - simpl. intros Hin Hs.
    destruct (quiet_not_signing _ _ (retrieve_xpi_quiet _ _ _ _ Er) Hin Hs).
Qed.

(** ** The claims *)

(** C3 (confirmed).  A call of the signing, packaging or publishing
    stages occurs in an invocation only if the event validated, its
    source yielded bytes, and the checksum of the event is the SHA-256
    hex digest of exactly those bytes; hence when the digest of the
    retrieved bytes differs from the checksum, no such call is made. *)
Theorem C3_no_signing_without_verified_digest
        (W : World) (e : RawEvent) (c : RawContext) :
  (forall ev,
      In ev (trace (snd (handle W e c))) ->
      signing_stage ev = true ->
      exists event body,
        SignEvent_load W e = Ok event
        /\ fetched W event = Some body
        /\ ev_checksum event = Some (SHA256.hexdigest body))
  /\ (forall event body,
         SignEvent_load W e = Ok event ->
         fetched W event = Some body ->
         ev_checksum event <> Some (SHA256.hexdigest body) ->
         forall ev, In ev (trace (snd (handle W e c))) ->
                    signing_stage ev = false).
Proof.
  assert (Hfirst : forall ev,
             In ev (trace (snd (handle W e c))) ->
             signing_stage ev = true ->
             exists event body,
               SignEvent_load W e = Ok event
               /\ fetched W event = Some body
               /\ ev_checksum event = Some (SHA256.hexdigest body)).
  { intros ev Hin Hs.
    destruct (signing_stage_inv _ _ _ _ Hin Hs)
      as (event & context & lf & fn & st1 & Hev & _ & Hr & _).
    destruct (retrieve_xpi_spec _ _ _ _ _ Hr) as (_ & _ & Hok).
    destruct (Hok lf fn eq_refl) as (Hf & Hc & _).
    exists event, (data lf). auto. }
  split; [exact Hfirst|].
  intros event body Hev Hf Hne ev Hin.
  destruct (signing_stage ev) eqn:Hs; [|reflexivity].
  destruct (Hfirst ev Hin Hs) as (event' & body' & Hev' & Hf' & Hc').
  rewrite Hev in Hev'. inversion Hev'; subst event'.
  rewrite Hf in Hf'. inversion Hf'; subst body'.
  contradiction.
Qed.

(** C3, on the fixture: the signing request of a successful run. *)
Lemma C3_witness :
  exists event body,
    SignEvent_load (example_world None 200) (url_event (Str fixture_sha256))
    = Ok event
    /\ fetched (example_world None 200) event = Some body
    /\ ev_checksum event = Some (SHA256.hexdigest body).
Proof.
  apply (proj1 (C3_no_signing_without_verified_digest
                  (example_world None 200) (url_event (Str fixture_sha256))
                  example_context)
               (MakeSigned "signature" "/tmp/tmpk3Zl9f-signed" "mozilla.rsa")).
  - vm_compute. right. right. left. reflexivity.
  - reflexivity.
Defined.

Ltac split_in H :=
  repeat (first
    [ rewrite In_push in H
    | rewrite in_app_iff in H
    | progress cbn [trace In] in H ]);
  repeat match type of H with
         | _ \/ _ => destruct H as [H | H]
         | False => destruct H
         end.

(** The calls made after retrieval, read off the table: at most one
    signing request, then at most one call to the package signer, then at
    most one upload. *)
Lemma after_retrieve_request (W : World) (context : ContextData)
      (lf : LocalFile) (filename : string) (st1 : State)
      (u : string) (a : HawkAuth) (b : json) :
  quiet st1 ->
  In (HttpPost u a b) (trace (snd (after_retrieve W context lf filename st1))) ->
  exists sig,
    jar_signature W (data lf) = Some sig
    /\ UrlParse.urljoin (server_url (autograph context)) "/sign/data" = Some u
    /\ a = mkHawkAuth (hawk_id (autograph context))
                      (hawk_secret (autograph context))
    /\ b = sign_request (Base64.b64encode sig) (key_id (autograph context))
                        (get_guid lf).
Proof.
  intros Hq. rewrite after_retrieve_eq.
  destruct (jar_signature W (data lf)) as [sig|];
    [|intro H; destruct (quiet_not_signing _ _ Hq H eq_refl)].
  destruct (UrlParse.urljoin _ _) as [url|];
    [|intro H; destruct (quiet_not_signing _ _ Hq H eq_refl)].
  cbv zeta. intro H.
  assert (Hpost :
            In (HttpPost u a b) (trace st1)
            \/ HttpPost u a b
               = HttpPost url (mkHawkAuth (hawk_id (autograph context))
                                          (hawk_secret (autograph context)))
                          (sign_request (Base64.b64encode sig)
                                        (key_id (autograph context))
                                        (get_guid lf))).
  { split_match_hyp H; cbn [snd] in H; split_in H;
      auto; discriminate H. }
  destruct Hpost as [Hin | E].
  - destruct (quiet_not_signing _ _ Hq Hin eq_refl).
  - inversion E; subst. exists sig. auto.
Qed.

(** C7 (as amended).  When the signing authority answers the signing
    request with a 4xx or 5xx status, the invocation fails with the HTTP
    error of that status, and neither the package signer nor the
    publisher is called. *)
Theorem C7_error_status_stops_pipeline
        (W : World) (e : RawEvent) (c : RawContext)
        (u : string) (a : HawkAuth) (b : json) (resp : Response) :
  In (HttpPost u a b) (trace (snd (handle W e c))) ->
  http_post W u a b = Some resp ->
  (400 <= status_code resp < 600)%Z ->
  fst (handle W e c) = Err (HTTPError (status_code resp))
  /\ forall ev, In ev (trace (snd (handle W e c))) -> after_signing ev = false.
Proof.
  intros Hin Hresp Hstatus.
  apply status_4xx_5xx in Hstatus.
  destruct (signing_stage_inv _ _ _ _ Hin eq_refl)
    as (event & context & lf & fn & st1 & _ & _ & Hr & Hh).
  pose proof (retrieve_xpi_quiet _ _ _ _ Hr) as Hq.
  rewrite Hh in Hin |- *.
  destruct (after_retrieve_request _ _ _ _ _ _ _ _ Hq Hin)
    as (sig & Hsig & Hurl & -> & ->).
  rewrite after_retrieve_eq, Hsig, Hurl. cbv zeta.
  rewrite Hresp, Hstatus. cbn [fst snd]. split; [reflexivity|].
  intros ev Hev. split_in Hev.
  - apply after_signing_stage, Hq, Hev.
  - subst ev. reflexivity.
Qed.

(** C7, on the fixture with a signing service that answers 503. *)
Lemma C7_witness :
  fst (handle (example_world None 503) (url_event (Str fixture_sha256))
              example_context)
  = Err (HTTPError 503)
  /\ forall ev,
      In ev (trace (snd (handle (example_world None 503)
                                (url_event (Str fixture_sha256))
                                example_context))) ->
      after_signing ev = false.
Proof.
  apply (C7_error_status_stops_pipeline
           (example_world None 503) (url_event (Str fixture_sha256))
           example_context
           "https://autograph.example.com/sign/data"
           (mkHawkAuth "alice" "secret")
           (sign_request "c2YtZGlnZXN0" "extensions-ecdsa"
                         "some-fake-guid@example.com")
           (mkResponse 503 None EmptyString
              (Some (JArr [JObj [("signature", JStr "c2lnbmF0dXJl")]])))).
  - vm_compute. right. left. reflexivity.
  - reflexivity.
  - simpl. lia.
Defined.

(** C7 as stated fails: a status outside 2xx that [raise_for_status] lets
    through (300, with a well-formed body) is followed by the call to the
    package signer and by the upload, and the invocation succeeds. *)
Lemma C7_counterexample :
  let W := example_world None 300 in
  let run := handle W (url_event (Str fixture_sha256)) example_context in
  exists u a b resp s o p bucket key body,
    In (HttpPost u a b) (trace (snd run))
    /\ http_post W u a b = Some resp
    /\ is_2xx (status_code resp) = false
    /\ is_ok (fst run) = true
    /\ In (MakeSigned s o p) (trace (snd run))
    /\ In (S3Put bucket key body) (trace (snd run)).
Proof.
  vm_compute. do 10 eexists.
  split; [right; left; reflexivity|].
  split; [reflexivity|].
  split; [reflexivity|].
  split; [reflexivity|].
  split; [right; right; left; reflexivity|].
  right; right; right; left; reflexivity.
Qed.

Lemma urlsplit_sign_data (sch : string) :
  UrlParse.urlsplit "/sign/data" sch
  = Some (UrlParse.mkSplit sch EmptyString "/sign/data"
                           EmptyString EmptyString).
Proof. reflexivity. Qed.

Lemma urlparse_sign_data (sch : string) :
  UrlParse.urlparse "/sign/data" sch
  = Some (UrlParse.mkParse sch EmptyString "/sign/data"
                           EmptyString EmptyString EmptyString).
Proof.
  unfold UrlParse.urlparse. rewrite urlsplit_sign_data.
  cbn [UrlParse.s_scheme UrlParse.s_netloc UrlParse.s_path UrlParse.s_query
       UrlParse.s_fragment].
  change (Py.contains ";" "/sign/data") with false.
  rewrite andb_false_r. reflexivity.
Qed.

(** Joining [/sign/data] to an http or https base keeps the scheme and
    the authority of the base and nothing else of it. *)
Lemma urljoin_sign_data (base : string) (b : UrlParse.ParseResult) :
  UrlParse.urlparse base EmptyString = Some b ->
  UrlParse.scheme b = "http" \/ UrlParse.scheme b = "https" ->
  UrlParse.urljoin base "/sign/data"
  = Some (UrlParse.scheme b ++ "://" ++ UrlParse.netloc b ++ "/sign/data").
Proof.
  intros Hb Hs.
  destruct base as [|x base].
  - vm_compute in Hb. inversion Hb; subst b. simpl in Hs.
    destruct Hs; discriminate.
  - unfold UrlParse.urljoin. cbn [Py.nonempty negb].
    rewrite Hb, urlparse_sign_data.
    cbn [UrlParse.scheme UrlParse.netloc UrlParse.path UrlParse.params
         UrlParse.query UrlParse.fragment].
    rewrite String.eqb_refl.
    destruct Hs as [E | E]; rewrite E; cbn; unfold UrlParse.urlunparse;
      cbn; unfold UrlParse.urlunsplit; cbn;
      rewrite orb_true_r; reflexivity.
Qed.

Lemma filter_post_quiet (l : list IOEvent) :
  (forall ev, In ev l -> signing_stage ev = false) ->
  filter is_post l = [].
Proof.
  induction l as [|x l IH]; intro H; simpl; [reflexivity|].
  assert (Hx : signing_stage x = false) by (apply H; left; reflexivity).
  destruct x; try discriminate Hx; simpl; apply IH; intros; apply H;
    right; assumption.
Qed.

(** C8 (as amended).  In every invocation that reaches the signing
    request (retrieval returned, the archive library read the package and
    the service URL can be joined), exactly one POST is issued; it is
    authenticated with the configured id and secret; its URL is
    [urljoin(serviceURL, '/sign/data')], which for an http or https
    service URL is the scheme and authority of the service URL followed
    by [/sign/data], whatever path the service URL has; its body is the
    one-element array [{input: base64 of the payload digest, keyid: the
    configured key id, options: {id: the package identity}}]; and a
    signature handed to the package signer is the base64-decoding of the
    [signature] field of the first element of the response. *)
Theorem C8_signing_request
        (W : World) (e : RawEvent) (c : RawContext)
        (event : EventData) (context : ContextData) (lf : LocalFile)
        (filename : string) (st1 : State) (sig url : string) :
  SignEvent_load W e = Ok event ->
  Context_load c = Ok context ->
  retrieve_xpi W event initial = (Ok (lf, filename), st1) ->
  jar_signature W (data lf) = Some sig ->
  UrlParse.urljoin (server_url (autograph context)) "/sign/data" = Some url ->
  let auth := mkHawkAuth (hawk_id (autograph context))
                         (hawk_secret (autograph context)) in
  let body := sign_request (Base64.b64encode sig)
                           (key_id (autograph context)) (get_guid lf) in
  filter is_post (trace (snd (handle W e c))) = [HttpPost url auth body]
  /\ (forall b,
         UrlParse.urlparse (server_url (autograph context)) EmptyString
         = Some b ->
         UrlParse.scheme b = "http" \/ UrlParse.scheme b = "https" ->
         url = UrlParse.scheme b ++ "://" ++ UrlParse.netloc b
                 ++ "/sign/data")
  /\ (forall s o p,
         In (MakeSigned s o p) (trace (snd (handle W e c))) ->
         exists resp v,
           http_post W url auth body = Some resp
           /\ first_signature resp = Ok (JStr v)
           /\ Base64.b64decode v = Some s).
Proof.
  intros Hev Hctx Hr Hsig Hurl auth body.
  pose proof (retrieve_xpi_quiet _ _ _ _ Hr) as Hq.
  pose proof (filter_post_quiet _ Hq) as Hf.
  rewrite handle_stages, Hev, Hctx, Hr, after_retrieve_eq, Hsig, Hurl.
  cbv zeta. fold auth body.
  split; [|split].
  - split_match_goal; cbn [snd trace push];
      rewrite ?filter_app, Hf; reflexivity.
  - intros b Hb Hs.
    rewrite (urljoin_sign_data _ _ Hb Hs) in Hurl. now inversion Hurl.
  - intros s o p Hin.
    destruct (http_post W url auth body) as [resp|] eqn:Hresp.
    + destruct ((400 <=? status_code resp) && (status_code resp <? 600))%Z.
      * cbn [snd] in Hin. split_in Hin;
          [destruct (quiet_not_signing _ _ Hq Hin eq_refl) | discriminate Hin].
      * destruct (first_signature resp) as [v|err] eqn:Hv.
        -- unfold b64decode_value in Hin.
           destruct v as [| | |v| |];
             try (cbn [snd] in Hin; split_in Hin;
                  [destruct (quiet_not_signing _ _ Hq Hin eq_refl)
                  | discriminate Hin]).
           destruct (Base64.b64decode v) as [s'|] eqn:Hd.
           ++ exists resp, v. split; [reflexivity|]. split; [exact Hv|].
              destruct (jar_make_signed W (data lf) s' "mozilla.rsa");
                cbn [snd] in Hin; split_in Hin;
                try (destruct (quiet_not_signing _ _ Hq Hin eq_refl));
                try discriminate Hin;
                inversion Hin; subst; exact Hd.
           ++ cbn [snd] in Hin. split_in Hin;
                [destruct (quiet_not_signing _ _ Hq Hin eq_refl)
                | discriminate Hin].
        -- cbn [snd] in Hin. split_in Hin;
             [destruct (quiet_not_signing _ _ Hq Hin eq_refl)
             | discriminate Hin].
    + cbn [snd] in Hin. split_in Hin;
        [destruct (quiet_not_signing _ _ Hq Hin eq_refl) | discriminate Hin].
Qed.

(** C8, on the fixture. *)
Lemma C8_witness :
  filter is_post
         (trace (snd (handle (example_world None 200)
                             (url_event (Str fixture_sha256))
                             example_context)))
  = [HttpPost "https://autograph.example.com/sign/data"
              (mkHawkAuth "alice" "secret")
              (sign_request "c2YtZGlnZXN0" "extensions-ecdsa"
                            "some-fake-guid@example.com")].
Proof.
  pose proof (C8_signing_request
                (example_world None 200) (url_event (Str fixture_sha256))
                example_context
                (mkEvent (mkSource (Some fixture_url) None None)
                         (Some fixture_sha256))
                (mkContext
                   (mkAutograph "alice" "secret"
                                "https://autograph.example.com/api/"
                                "extensions-ecdsa")
                   "signed-addons")
                (mkLocalFile "/tmp/tmpk3Zl9f" fixture_bytes 0)
                "a.xpi"
                (mkState [HttpGet fixture_url] [])
                "sf-digest"
                "https://autograph.example.com/sign/data") as H.
  assert (H1 : SignEvent_load (example_world None 200)
                              (url_event (Str fixture_sha256))
               = Ok (mkEvent (mkSource (Some fixture_url) None None)
                             (Some fixture_sha256)))
    by (vm_compute; reflexivity).
  assert (H2 : retrieve_xpi (example_world None 200)
                 (mkEvent (mkSource (Some fixture_url) None None)
                          (Some fixture_sha256)) initial
               = (Ok (mkLocalFile "/tmp/tmpk3Zl9f" fixture_bytes 0, "a.xpi"),
                  mkState [HttpGet fixture_url] []))
    by (vm_compute; reflexivity).
  exact (proj1 (H H1 eq_refl H2 eq_refl eq_refl)).
Defined.

(** C8 as stated fails: with a service URL that has a path, the request
    goes to the root of the host, not to the service URL extended by
    [/sign/data]. *)
Lemma C8_counterexample :
  let run := handle (example_world None 200) (url_event (Str fixture_sha256))
                    example_context in
  exists context u a b,
    Context_load example_context = Ok context
    /\ server_url (autograph context) = "https://autograph.example.com/api/"
    /\ In (HttpPost u a b) (trace (snd run))
    /\ u = "https://autograph.example.com/sign/data"
    /\ extended_with (server_url (autograph context)) "/sign/data" u = false
    /\ String.prefix (server_url (autograph context)) u = false.
Proof.
  vm_compute. do 4 eexists.
  split; [reflexivity|].
  split; [reflexivity|].
  split; [right; left; reflexivity|].
  repeat split.
Qed.

(** C1 (as amended).  In every successful invocation the key of the
    returned upload result is the filename derived during retrieval,
    unchanged, and the bucket is the configured output bucket; that is
    also the key of the upload.  [-signed] is inserted before the
    extension of the local temporary file's path, to name the local
    signed file handed to the package signer, and nowhere else. *)
Theorem C1_uploaded_key
        (W : World) (e : RawEvent) (c : RawContext) (r : UploadResult) :
  fst (handle W e c) = Ok r ->
  exists event context lf filename st1,
    SignEvent_load W e = Ok event
    /\ Context_load c = Ok context
    /\ retrieve_xpi W event initial = (Ok (lf, filename), st1)
    /\ uploaded_key r = filename
    /\ uploaded_bucket r = output_bucket context
    /\ exists s body,
        In (MakeSigned s (signed_name (tmp_name W)) "mozilla.rsa")
           (trace (snd (handle W e c)))
        /\ In (S3Put (output_bucket context) filename body)
              (trace (snd (handle W e c))).
Proof.
  rewrite handle_stages.
  destruct (SignEvent_load W e) as [event|err]; [|discriminate].
  destruct (Context_load c) as [context|err]; [|discriminate].
  destruct (retrieve_xpi W event initial) as [[[lf fn]|err] st1] eqn:Hr;
    [|discriminate].
  destruct (retrieve_xpi_spec _ _ _ _ _ Hr) as (_ & _ & Hok).
  destruct (Hok lf fn eq_refl) as (_ & _ & Hname).
  rewrite after_retrieve_eq, Hname. cbv zeta. intro H.
  exists event, context, lf, fn, st1.
  do 2 (split; [reflexivity|]). split; [exact Hr|].
  split_match_hyp H; cbn [fst] in H; try discriminate H.
  inversion H; subst r; clear H. cbn [uploaded_key uploaded_bucket].
  do 2 (split; [reflexivity|]).
  eexists _, _. cbn [snd trace push].
  rewrite !in_app_iff. cbn [In]. split; eauto 6.
Qed.

(** C1, on the fixture: the package at [.../a.xpi] is uploaded under
    [a.xpi]. *)
Lemma C1_witness :
  exists event context lf filename st1,
    SignEvent_load (example_world None 200) (url_event (Str fixture_sha256))
    = Ok event
    /\ Context_load example_context = Ok context
    /\ retrieve_xpi (example_world None 200) event initial
       = (Ok (lf, filename), st1)
    /\ uploaded_key (mkUploaded "signed-addons" "a.xpi") = filename
    /\ uploaded_bucket (mkUploaded "signed-addons" "a.xpi")
       = output_bucket context
    /\ exists s body,
        In (MakeSigned s (signed_name (tmp_name (example_world None 200)))
                       "mozilla.rsa")
           (trace (snd (handle (example_world None 200)
                               (url_event (Str fixture_sha256))
                               example_context)))
        /\ In (S3Put (output_bucket context) filename body)
              (trace (snd (handle (example_world None 200)
                                  (url_event (Str fixture_sha256))
                                  example_context))).
Proof.
  apply (C1_uploaded_key (example_world None 200)
                         (url_event (Str fixture_sha256)) example_context
                         (mkUploaded "signed-addons" "a.xpi")).
  vm_compute. reflexivity.
Defined.

(** C1 as stated fails: the package retrieved from [.../a.xpi] is
    uploaded under the key [a.xpi], not [a-signed.xpi]. *)
Lemma C1_counterexample :
  let W := example_world None 200 in
  let run := handle W (url_event (Str fixture_sha256)) example_context in
  let event := mkEvent (mkSource (Some fixture_url) None None)
                       (Some fixture_sha256) in
  let lf := mkLocalFile "/tmp/tmpk3Zl9f" fixture_bytes 0 in
  SignEvent_load W (url_event (Str fixture_sha256)) = Ok event
  /\ retrieve_xpi W event initial
     = (Ok (lf, "a.xpi"), mkState [HttpGet fixture_url] [])
  /\ fst run = Ok (mkUploaded "signed-addons" "a.xpi")
  /\ signed_name "a.xpi" = "a-signed.xpi"
  /\ uploaded_key (mkUploaded "signed-addons" "a.xpi") <> signed_name "a.xpi"
  /\ In (S3Put "signed-addons" "a.xpi" (fixture_bytes ++ "signature"))
        (trace (snd run)).
Proof.
  vm_compute.
  do 4 (split; [reflexivity|]).
  split; [discriminate|].
  right; right; right; left; reflexivity.
Qed.

(** C2 (as amended).  For every staged package and every supplied
    checksum, retrieval succeeds if and only if the lowercase hex SHA-256
    digest of the staged bytes equals the supplied checksum as a string,
    exactly (case matters); on any difference the invocation fails in the
    state the download left, so nothing is signed, packaged or published,
    and after a retrieval by URL the error is the [ChecksumMatchError]
    that carries the URL, the expected and the actual digest. *)
Theorem C2_checksum_exact
        (W : World) (e : RawEvent) (c : RawContext)
        (event : EventData) (context : ContextData)
        (url : option string) (filename : string) (lf : LocalFile)
        (st1 : State) (expected : string) :
  SignEvent_load W e = Ok event ->
  Context_load c = Ok context ->
  retrieve_xpi_download W event initial = (Ok (url, filename, lf), st1) ->
  ev_checksum event = Some expected ->
  fetched W event = Some (data lf)
  /\ (is_ok (fst (retrieve_xpi W event initial)) = true
      <-> SHA256.hexdigest (data lf) = expected)
  /\ (SHA256.hexdigest (data lf) <> expected ->
      is_ok (fst (handle W e c)) = false
      /\ snd (handle W e c) = st1
      /\ quiet st1
      /\ forall u, url = Some u ->
                   fst (handle W e c)
                   = Err (ChecksumMatchError u expected
                            (SHA256.hexdigest (data lf)))).
Proof.
  intros Hev Hctx Hd Hc.
  destruct (retrieve_xpi_download_spec _ _ _ _ _ Hd) as (_ & _ & Hok).
  destruct (Hok url filename lf eq_refl) as (Hf & _ & _).
  split; [exact Hf|].
  assert (Hr : retrieve_xpi W event initial
               = retrieve_xpi_verify event url filename lf st1)
    by (unfold retrieve_xpi, bind; now rewrite Hd).
  rewrite retrieve_xpi_verify_eq, Hc in Hr.
  split.
  - rewrite Hr.
    destruct (String.eqb_spec (SHA256.hexdigest (data lf)) expected)
      as [E|E]; cbn [fst is_ok].
    + tauto.
    + split; [|contradiction]. destruct url; discriminate.
  - intro Hne.
    assert (Hq : quiet st1).
    { destruct (retrieve_xpi W event initial) as [r st] eqn:Er.
      inversion Hr; subst st. exact (retrieve_xpi_quiet _ _ _ _ Er). }
    rewrite handle_stages, Hev, Hctx, Hr.
    destruct (String.eqb_spec (SHA256.hexdigest (data lf)) expected)
      as [E|E]; [contradiction|].
    destruct url as [u|]; cbn [fst snd is_ok].
    + repeat split; auto. intros u' Hu. now inversion Hu.
    + repeat split; auto. discriminate.
Qed.

(** C2, on the fixture with the right digest. *)
Lemma C2_witness :
  is_ok (fst (retrieve_xpi (example_world None 200)
                (mkEvent (mkSource (Some fixture_url) None None)
                         (Some fixture_sha256)) initial)) = true
  <-> SHA256.hexdigest fixture_bytes = fixture_sha256.
Proof.
  pose proof (C2_checksum_exact
                (example_world None 200) (url_event (Str fixture_sha256))
                example_context
                (mkEvent (mkSource (Some fixture_url) None None)
                         (Some fixture_sha256))
                (mkContext
                   (mkAutograph "alice" "secret"
                                "https://autograph.example.com/api/"
                                "extensions-ecdsa")
                   "signed-addons")
                (Some fixture_url) "a.xpi"
                (mkLocalFile "/tmp/tmpk3Zl9f" fixture_bytes 16)
                (mkState [HttpGet fixture_url] [])
                fixture_sha256) as H.
  assert (H1 : retrieve_xpi_download (example_world None 200)
                 (mkEvent (mkSource (Some fixture_url) None None)
                          (Some fixture_sha256)) initial
               = (Ok (Some fixture_url, "a.xpi",
                      mkLocalFile "/tmp/tmpk3Zl9f" fixture_bytes 16),
                  mkState [HttpGet fixture_url] []))
    by (vm_compute; reflexivity).
  exact (proj1 (proj2 (H eq_refl eq_refl H1 eq_refl))).
Defined.

(** C2 as stated fails: a checksum that equals the digest up to the case
    of its letters is rejected. *)
Lemma C2_counterexample :
  let W := example_world None 200 in
  let run := handle W (url_event (Str fixture_sha256_upper)) example_context in
  fetched W (mkEvent (mkSource (Some fixture_url) None None)
                     (Some fixture_sha256_upper)) = Some fixture_bytes
  /\ eq_nocase (SHA256.hexdigest fixture_bytes) fixture_sha256_upper = true
  /\ fst run = Err (ChecksumMatchError fixture_url fixture_sha256_upper
                      fixture_sha256)
  /\ trace (snd run) = [HttpGet fixture_url].
Proof. vm_compute. repeat split. Qed.

Lemma no_errors_app (l1 l2 : list string) :
  no_errors (l1 ++ l2) = (no_errors l1 && no_errors l2)%bool.
Proof. destruct l1; reflexivity. Qed.

Lemma no_errors_map (f : string -> string) (l : list string) :
  no_errors (map f l) = no_errors l.
Proof. destruct l; reflexivity. Qed.

Lemma is_ok_SignEvent_load (W : World) (url bucket key checksum : RawField) :
  is_ok (SignEvent_load W (mkRawEvent (SrcObject url bucket key) checksum))
  = (no_errors (snd (SourceInfo_load W url bucket key))
     && no_errors (loaded_errors "checksum" (String_field false checksum)))%bool.
Proof.
  unfold SignEvent_load. cbn [raw_source raw_checksum].
  destruct (SourceInfo_load W url bucket key) as [d errors]. cbn [snd].
  rewrite <- (no_errors_map (fun f => "source." ++ f) errors).
  rewrite <- no_errors_app.
  destruct (map _ errors ++ _)%list; reflexivity.
Qed.

Lemma no_errors_String_field (field : string) (r : RawField) :
  no_errors (loaded_errors field (String_field false r)) = string_entry r.
Proof. destruct r; reflexivity. Qed.

Lemma no_errors_URL_field (W : World) (field : string) (r : RawField) :
  no_errors (loaded_errors field (URL_field W r)) = url_entry W r.
Proof.
  destruct r as [| |s|]; try reflexivity.
  unfold URL_field; cbn [String_field url_entry].
  destruct (url_validate W s); reflexivity.
Qed.

Lemma truthy_String_field (r : RawField) :
  Py.truthy (loaded_value (String_field false r)) = populated r.
Proof. destruct r; reflexivity. Qed.

Lemma truthy_URL_field (W : World) (r : RawField) :
  Py.truthy (loaded_value (URL_field W r))
  = (populated r && url_entry W r)%bool.
Proof.
  destruct r as [| |s|]; try reflexivity.
  unfold URL_field; cbn [String_field url_entry populated].
  destruct (url_validate W s) eqn:Hu; cbn [loaded_value Py.truthy].
  - now rewrite andb_true_r.
  - now rewrite andb_false_r.
Qed.

(** C4 (as amended).  Validation of an event whose source is an object
    succeeds exactly when every entry present has the type of its field
    and either the URL is populated or both bucket and key are: a source
    with neither, and a source with only a bucket or only a key, is
    refused; a source with a URL and a bucket/key pair is accepted, as is
    a URL with a bucket or a key alone. *)
Theorem C4_source_validation
        (W : World) (url bucket key checksum : RawField) :
  is_ok (SignEvent_load W (mkRawEvent (SrcObject url bucket key) checksum))
  = (url_entry W url && string_entry bucket && string_entry key
     && string_entry checksum
     && ((populated url && url_entry W url)
         || (populated bucket && populated key)))%bool.
Proof.
  rewrite is_ok_SignEvent_load. unfold SourceInfo_load. cbn [snd].
  rewrite !no_errors_app, no_errors_URL_field, !no_errors_String_field.
  unfold verify_either_url_or_s3_info. cbn [src_url src_bucket src_key].
  rewrite truthy_URL_field, !truthy_String_field.
  destruct (url_entry W url), (string_entry bucket), (string_entry key),
    (string_entry checksum), (populated url), (populated bucket),
    (populated key); reflexivity.
Qed.

(** C4 as stated fails: a source with a URL and a complete bucket/key
    pair is accepted, and not exactly one variant is populated. *)
Lemma C4_counterexample :
  exists event,
    SignEvent_load (example_world None 200) (both_event (Str fixture_sha256))
    = Ok event
    /\ ev_source event
       = mkSource (Some fixture_url) (Some "incoming") (Some "other.xpi")
    /\ verify_either_url_or_s3_info (ev_source event) = Ok tt
    /\ exactly_one_variant (ev_source event) = false.
Proof. vm_compute. eexists. repeat split. Qed.

(** C5 (as amended).  An event whose checksum entry is present and is
    not a string ([null], or a value of another type) fails validation
    with a [ValidationError] that names [checksum], before any call
    leaves the process.  (A checksum that is the empty string is
    accepted by validation.) *)
Theorem C5_checksum_validation
        (W : World) (e : RawEvent) (c : RawContext) :
  raw_checksum e = Null \/ raw_checksum e = NotStr ->
  exists fields,
    handle W e c = (Err (ValidationError fields), initial)
    /\ In "checksum" fields
    /\ trace (snd (handle W e c)) = [].
Proof.
  intro Hc. rewrite handle_stages. unfold SignEvent_load.
  destruct (match raw_source e with
            | SrcObject url bucket key =>
                let '(d, errors) := SourceInfo_load W url bucket key in
                (d, map (fun f => "source." ++ f) errors)
            | _ => (mkSource None None None, ["source"])
            end) as [source errors].
  assert (Hl : loaded_errors "checksum" (String_field false (raw_checksum e))
               = ["checksum"])
    by (destruct Hc as [-> | ->]; reflexivity).
  rewrite Hl.
  exists (errors ++ ["checksum"])%list.
  destruct errors as [|x errors]; cbn [app]; repeat split;
    try reflexivity.
  - left; reflexivity.
  - right. apply in_or_app. right. left. reflexivity.
Qed.

(** C5, on the fixture with a [null] checksum. *)
Lemma C5_witness :
  exists fields,
    handle (example_world None 200) (url_event Null) example_context
    = (Err (ValidationError fields), initial)
    /\ In "checksum" fields
    /\ trace (snd (handle (example_world None 200) (url_event Null)
                          example_context)) = [].
Proof.
  apply (C5_checksum_validation (example_world None 200) (url_event Null)
                                example_context).
  left. reflexivity.
Defined.

(** C5 as stated fails: an event whose checksum is the empty string
    passes validation, the package is fetched, and the failure is the
    checksum mismatch found afterwards. *)
Lemma C5_counterexample :
  let W := example_world None 200 in
  let run := handle W (url_event (Str EmptyString)) example_context in
  populated (raw_checksum (url_event (Str EmptyString))) = false
  /\ is_ok (SignEvent_load W (url_event (Str EmptyString))) = true
  /\ In (HttpGet fixture_url) (trace (snd run))
  /\ fst run = Err (ChecksumMatchError fixture_url EmptyString fixture_sha256).
Proof.
  vm_compute. split; [reflexivity|]. split; [reflexivity|].
  split; [left; reflexivity | reflexivity].
Qed.

(** After a retrieval from the object store, a checksum mismatch raises
    [UnboundLocalError], whatever the world. *)
Lemma stored_object_mismatch
      (W : World) (event : EventData) (url : option string)
      (filename : string) (lf : LocalFile) (st st1 : State)
      (expected : string) :
  Py.truthy (src_url (ev_source event)) = false ->
  retrieve_xpi_download W event st = (Ok (url, filename, lf), st1) ->
  ev_checksum event = Some expected ->
  SHA256.hexdigest (data lf) <> expected ->
  retrieve_xpi W event st = (Err (UnboundLocalError "url"), st1).
Proof.
  intros Hu Hd Hc Hne.
  destruct (retrieve_xpi_download_spec _ _ _ _ _ Hd) as (_ & _ & Hok).
  destruct (Hok url filename lf eq_refl) as (_ & _ & Hurl).
  rewrite Hu in Hurl. subst url.
  unfold retrieve_xpi, bind. rewrite Hd, retrieve_xpi_verify_eq, Hc.
  destruct (String.eqb_spec (SHA256.hexdigest (data lf)) expected);
    [contradiction | reflexivity].
Qed.

(** C6 (code defect).  On the fixture, retrieved from the object store
    with a checksum that differs from the digest in one digit, the
    handler raises [UnboundLocalError] for the variable [url], not the
    checksum error; retrieved by URL with the same checksum, it raises
    the checksum error with URL, expected and actual digest. *)
Theorem C6_stored_object_mismatch_error :
  let W := example_world None 200 in
  fetched W (mkEvent (mkSource None (Some "incoming") (Some "addons/a.xpi"))
                     (Some fixture_sha256_off)) = Some fixture_bytes
  /\ SHA256.hexdigest fixture_bytes = fixture_sha256
  /\ handle W (s3_event "addons/a.xpi" (Str fixture_sha256_off))
            example_context
     = (Err (UnboundLocalError "url"),
        mkState [S3Download "incoming" "addons/a.xpi"] [])
  /\ handle W (url_event (Str fixture_sha256_off)) example_context
     = (Err (ChecksumMatchError fixture_url fixture_sha256_off fixture_sha256),
        mkState [HttpGet fixture_url] []).
Proof. vm_compute. repeat split. Qed.

(** The two examples of the filename rule: the name in a quoted
    [filename] parameter, and the last segment of the URL when there is
    no header. *)
Example filename_from_header :
  extract_response_filename
    (mkResponse 200 (Some ("attachment; filename=" ++ quoted "pkg.xpi"))
                EmptyString None)
  = Ok (Some "pkg.xpi").
Proof. reflexivity. Qed.

Example filename_from_header_escaped :
  extract_response_filename
    (mkResponse 200 (Some ("attachment; filename=" ++ quoted "a\\b.xpi"))
                EmptyString None)
  = Ok (Some "a\b.xpi").
Proof. reflexivity. Qed.

Example filename_from_url :
  let W := example_world None 200 in
  exists lf st,
    retrieve_xpi W (mkEvent (mkSource (Some fixture_url) None None)
                            (Some fixture_sha256)) initial
    = (Ok (lf, "a.xpi"), st).
Proof. vm_compute. eauto. Qed.

Example filename_header_wins :
  let W := example_world (Some ("attachment; filename=" ++ quoted "pkg.xpi"))
                         200 in
  exists lf st,
    retrieve_xpi W (mkEvent (mkSource (Some fixture_url) None None)
                            (Some fixture_sha256)) initial
    = (Ok (lf, "pkg.xpi"), st).
Proof. vm_compute. eauto. Qed.

Example filename_from_key :
  let W := example_world None 200 in
  exists lf st,
    retrieve_xpi W (mkEvent (mkSource None (Some "incoming")
                                      (Some "addons/a.xpi"))
                            (Some fixture_sha256)) initial
    = (Ok (lf, "a.xpi"), st).
Proof. vm_compute. eauto. Qed.

(** C9 (code defect).  Two inputs on which no filename is derived: a
    [Content-Disposition] header with a parameter that has no [=] makes
    [extract_response_filename] raise [ValueError] where its docstring
    promises [None], so the URL's last segment is never used; and a key
    without [/] makes the retrieval from the object store raise
    [ValueError] before anything is fetched. *)
Theorem C9_filename_derivation_errors :
  extract_response_filename
    (mkResponse 200 (Some "attachment;") fixture_bytes None)
  = Err ValueError
  /\ handle (example_world (Some "attachment;") 200)
            (url_event (Str fixture_sha256)) example_context
     = (Err ValueError, mkState [HttpGet fixture_url] [])
  /\ handle (example_world (Some "attachment; inline-flag; filename=pkg.xpi")
                           200)
            (url_event (Str fixture_sha256)) example_context
     = (Err ValueError, mkState [HttpGet fixture_url] [])
  /\ s3_object (example_world None 200) "incoming" "a.xpi"
     = Some fixture_bytes
  /\ handle (example_world None 200) (s3_event "a.xpi" (Str fixture_sha256))
            example_context
     = (Err ValueError, initial).
Proof. vm_compute. repeat split. Qed.

(** The download depends on the source only through its URL, when there
    is one. *)
Lemma retrieve_xpi_download_url
      (W : World) (event : EventData) (u : string) (st : State) :
  src_url (ev_source event) = Some u ->
  Py.nonempty u = true ->
  retrieve_xpi_download W event st
  = retrieve_xpi_download W (mkEvent (mkSource (Some u) None None) None) st
  /\ trace (snd (retrieve_xpi_download W event st))
     = (trace st ++ [HttpGet u])%list.
Proof.
  intros Hu Hn. unfold retrieve_xpi_download.
  cbn [ev_source src_url]. rewrite Hu. cbn [Py.truthy]. rewrite Hn.
  split; [reflexivity|].
  unfold_io.
  destruct (http_get W u) as [response|]; [|reflexivity].
  destruct ((400 <=? status_code response)
            && (status_code response <? 600))%Z; [reflexivity|].
  destruct (unpack2 (Py.rsplit1 "/" (Py.strip_char "/" u))) as [[a fn]|err];
    [|reflexivity].
  destruct (extract_response_filename response); reflexivity.
Qed.

Lemma retrieve_xpi_url
      (W : World) (event : EventData) (u : string) (st : State) :
  src_url (ev_source event) = Some u ->
  Py.nonempty u = true ->
  retrieve_xpi W event st
  = retrieve_xpi W (mkEvent (mkSource (Some u) None None)
                            (ev_checksum event)) st
  /\ trace (snd (retrieve_xpi W event st)) = (trace st ++ [HttpGet u])%list.
Proof.
  intros Hu Hn.
  destruct (retrieve_xpi_download_url W event u st Hu Hn) as (E1 & T1).
  destruct (retrieve_xpi_download_url
              W (mkEvent (mkSource (Some u) None None) (ev_checksum event))
              u st eq_refl Hn) as (E2 & _).
  unfold retrieve_xpi, bind. rewrite E2, <- E1.
  destruct (retrieve_xpi_download W event st) as [[[[url fn] lf]|err] st1].
  - rewrite !retrieve_xpi_verify_eq. cbn [ev_checksum snd fst] in *.
    split; [reflexivity | exact T1].
  - split; [reflexivity | exact T1].
Qed.

(** Validation of an event whose source has a valid URL. *)
Lemma SignEvent_load_url
      (W : World) (u : string) (bucket key : option string)
      (checksum : RawField) :
  url_validate W u = true ->
  let raw o := match o with Some s => Str s | None => Missing end in
  SignEvent_load W (mkRawEvent (SrcObject (Str u) (raw bucket) (raw key))
                               checksum)
  = match String_field false checksum with
    | Invalid => Err (ValidationError ["checksum"])
    | l => Ok (mkEvent (mkSource (Some u) bucket key) (loaded_value l))
    end.
Proof.
  intros Hv raw.
  assert (Hn : Py.nonempty u = true)
    by (unfold url_validate in Hv; now apply andb_true_iff in Hv).
  unfold SignEvent_load, SourceInfo_load, verify_either_url_or_s3_info,
    URL_field.
  cbn [raw_source raw_checksum String_field]. rewrite Hv.
  cbn [loaded_value src_url Py.truthy]. rewrite Hn.
  destruct bucket, key, checksum; reflexivity.
Qed.

(** C10 (confirmed).  When the source of an event carries a valid URL
    together with a bucket and a key, the invocation is, result and calls
    alike, the one of the event with the URL alone; retrieval makes the
    GET of the URL and no call to the object store, and returns the bytes
    and the filename it returns for the URL alone. *)
Theorem C10_url_takes_precedence
        (W : World) (u b k : string) (checksum : RawField) (c : RawContext) :
  url_validate W u = true ->
  handle W (mkRawEvent (SrcObject (Str u) (Str b) (Str k)) checksum) c
  = handle W (mkRawEvent (SrcObject (Str u) Missing Missing) checksum) c
  /\ forall event,
      SignEvent_load W (mkRawEvent (SrcObject (Str u) (Str b) (Str k))
                                   checksum) = Ok event ->
      ev_source event = mkSource (Some u) (Some b) (Some k)
      /\ retrieve_xpi W event initial
         = retrieve_xpi W (mkEvent (mkSource (Some u) None None)
                                   (ev_checksum event)) initial
      /\ trace (snd (retrieve_xpi W event initial)) = [HttpGet u].
Proof.
  intro Hv.
  assert (Hn : Py.nonempty u = true)
    by (unfold url_validate in Hv; now apply andb_true_iff in Hv).
  pose proof (SignEvent_load_url W u (Some b) (Some k) checksum Hv) as Hboth.
  pose proof (SignEvent_load_url W u None None checksum Hv) as Hurl.
  cbv zeta in Hboth, Hurl.
  split.
  - rewrite !handle_stages, Hboth, Hurl.
    destruct (String_field false checksum) as [|s|]; cbn [loaded_value];
      [| |reflexivity];
      (destruct (Context_load c) as [context|]; [|reflexivity]);
      rewrite (proj1 (retrieve_xpi_url
                        W (mkEvent (mkSource (Some u) (Some b) (Some k)) _)
                        u initial eq_refl Hn));
      reflexivity.
  - intros event Hev. rewrite Hboth in Hev.
    assert (Hs : ev_source event = mkSource (Some u) (Some b) (Some k))
      by (destruct (String_field false checksum);
          inversion Hev; reflexivity).
    split; [exact Hs|].
    apply retrieve_xpi_url; [now rewrite Hs | exact Hn].
Qed.

(** C10, on the fixture: the URL is fetched, the bucket and key are not
    looked at. *)
Lemma C10_witness :
  handle (example_world None 200) (both_event (Str fixture_sha256))
         example_context
  = handle (example_world None 200) (url_event (Str fixture_sha256))
           example_context.
Proof.
  exact (proj1 (C10_url_takes_precedence
                  (example_world None 200) fixture_url "incoming" "other.xpi"
                  (Str fixture_sha256) example_context eq_refl)).
Defined.

(** ** Further properties of the handler *)

(** The download makes exactly one call when it returns, and at most one
    when it fails. *)
Lemma retrieve_xpi_download_calls (W : World) (event : EventData)
      (st st' : State) (r : Result (option string * string * LocalFile)) :
  retrieve_xpi_download W event st = (r, st') ->
  (is_ok r = false /\ trace st' = trace st)
  \/ exists ev, trace st' = (trace st ++ [ev])%list /\ stage ev = 0.
Proof.
  unfold retrieve_xpi_download.
  destruct (Py.truthy (src_url (ev_source event))); unfold_io; intro H.
  - destruct (src_url (ev_source event)) as [u|];
      [|inversion H; subst; left; split; reflexivity].
    right. exists (HttpGet u). split; [|reflexivity].
    cbn in H.
    destruct (http_get W u) as [response|];
      [|inversion H; subst; reflexivity].
    destruct ((400 <=? status_code response)
              && (status_code response <? 600))%Z;
      [inversion H; subst; reflexivity|].
    destruct (unpack2 (Py.rsplit1 "/" (Py.strip_char "/" u)))
      as [[a fn]|err]; cbn in H; [|inversion H; subst; reflexivity].
    destruct (extract_response_filename response);
      inversion H; subst; reflexivity.
  - destruct (src_bucket (ev_source event)) as [b|];
      [|inversion H; subst; left; split; reflexivity].
    destruct (src_key (ev_source event)) as [k|];
      [|inversion H; subst; left; split; reflexivity].
    cbn in H.
    destruct (unpack2 (Py.rsplit1 "/" k)) as [[a fn]|err]; cbn in H;
      [|inversion H; subst; left; split; reflexivity].
    right. exists (S3Download b k). split; [|reflexivity].
    destruct (s3_object W b k); inversion H; subst; reflexivity.
Qed.

Lemma retrieve_xpi_calls (W : World) (event : EventData)
      (st st' : State) (r : Result (LocalFile * string)) :
  retrieve_xpi W event st = (r, st') ->
  (is_ok r = false /\ trace st' = trace st)
  \/ exists ev, trace st' = (trace st ++ [ev])%list /\ stage ev = 0.
Proof.
  unfold retrieve_xpi, bind.
  destruct (retrieve_xpi_download W event st) as [[[[u fn] lf]|err] st1] eqn:Ed;
    intro H; destruct (retrieve_xpi_download_calls _ _ _ _ _ Ed)
      as [(Hok & Ht) | Hev]; try discriminate Hok.
  - rewrite retrieve_xpi_verify_eq in H. inversion H; subst. right. exact Hev.
  - inversion H; subst. left. auto.
  - inversion H; subst. right. exact Hev.
Qed.

(** X1.  The calls of an invocation follow the stages in order, one call
    per stage and none skipped: the trace is a beginning of (retrieval,
    signing request, packaging, upload); a successful invocation has made
    all four. *)
Theorem X1_pipeline_is_linear (W : World) (e : RawEvent) (c : RawContext) :
  let tr := trace (snd (handle W e c)) in
  map stage tr = seq 0 (List.length tr)
  /\ List.length tr <= 4
  /\ (is_ok (fst (handle W e c)) = true -> List.length tr = 4).
Proof.
  cbv zeta. rewrite handle_stages.
  destruct (SignEvent_load W e) as [event|err];
    [|cbn; repeat split; [lia | discriminate]].
  destruct (Context_load c) as [context|err];
    [|cbn; repeat split; [lia | discriminate]].
  destruct (retrieve_xpi W event initial) as [[[lf fn]|err] st1] eqn:Hr;
    destruct (retrieve_xpi_calls _ _ _ _ _ Hr)
      as [(Hok & Ht) | (ev & Ht & Hs)]; try discriminate Hok.
  - rewrite after_retrieve_eq. cbv zeta.
    split_match_goal; cbn [fst snd trace push is_ok];
      rewrite Ht; cbn; rewrite Hs;
      repeat split; try reflexivity; try lia; discriminate.
  - cbn [fst snd is_ok]. rewrite Ht. cbn.
    repeat split; [lia | discriminate].
  - cbn [fst snd is_ok]. rewrite Ht. cbn. rewrite Hs.
    repeat split; [lia | discriminate].
Qed.

(** X1, on the fixture: a successful run makes four calls. *)
Lemma X1_witness :
  List.length (trace (snd (handle (example_world None 200)
                                  (url_event (Str fixture_sha256))
                                  example_context))) = 4.
Proof.
  apply (proj2 (proj2 (X1_pipeline_is_linear
                         (example_world None 200)
                         (url_event (Str fixture_sha256)) example_context))).
  vm_compute. reflexivity.
Defined.

Lemma filename_parameter_error (parameters : list string) (err : Error) :
  filename_parameter parameters = Err err -> err = ValueError.
Proof.
  induction parameters as [|p l IH]; cbn; [discriminate|].
  destruct (Py.split1 "=" (Py.strip p)) as [|a [|b [|x t]]]; cbn;
    try (intro H; now inversion H).
  destruct (String.eqb a "filename"); [discriminate | exact IH].
Qed.

Lemma extract_response_filename_error (response : Response) (err : Error) :
  extract_response_filename response = Err err -> err = ValueError.
Proof.
  unfold extract_response_filename.
  destruct (content_disposition response) as [h|]; [|discriminate].
  destruct (negb (Py.nonempty h)); [discriminate|].
  destruct (negb _); [discriminate|].
  apply filename_parameter_error.
Qed.

(** The errors validation raises are validation errors; the later stages
    raise none. *)
Lemma SignEvent_load_error (W : World) (e : RawEvent) (err : Error) :
  SignEvent_load W e = Err err -> exists fields, err = ValidationError fields.
Proof.
  unfold SignEvent_load.
  destruct (match raw_source e with
            | SrcObject url bucket key =>
                let '(d, errors) := SourceInfo_load W url bucket key in
                (d, map (fun f => "source." ++ f) errors)
            | _ => (mkSource None None None, ["source"])
            end) as [source errors].
  destruct (errors ++ _)%list; intro H; inversion H; eauto.
Qed.

Lemma Context_load_error (c : RawContext) (err : Error) :
  Context_load c = Err err -> exists fields, err = ValidationError fields.
Proof.
  unfold Context_load.
  destruct (match raw_autograph c with
            | AgObject hawkId hawkSecret serverUrl keyId => _
            | _ => _
            end) as [ag errors].
  destruct ag, (String_field true (raw_outputBucket c)),
    (errors ++ _)%list; intro H; inversion H; eauto.
Qed.

Lemma retrieve_xpi_no_validation_error (W : World) (event : EventData)
      (st st' : State) (fields : list string) :
  retrieve_xpi W event st <> (Err (ValidationError fields), st').
Proof.
  unfold retrieve_xpi, bind.
  destruct (retrieve_xpi_download W event st) as [[[[u fn] lf]|err] st1] eqn:Ed.
  - rewrite retrieve_xpi_verify_eq.
    destruct (ev_checksum event); [|discriminate].
    destruct (String.eqb _ _); [discriminate|].
    destruct u; discriminate.
  - intro H. inversion H; subst. clear H.
    unfold retrieve_xpi_download in Ed.
    destruct (Py.truthy (src_url (ev_source event))); unfold_io.
    + destruct (src_url (ev_source event)) as [u|]; [|discriminate].
      cbn in Ed.
      destruct (http_get W u) as [response|]; [|discriminate].
      destruct ((400 <=? status_code response)
                && (status_code response <? 600))%Z;
        [discriminate|].
      destruct (unpack2 _) as [[a fn]|err] eqn:Eu; cbn in Ed.
      * destruct (extract_response_filename response) as [hf|err] eqn:Ee;
          [discriminate|].
        apply extract_response_filename_error in Ee. subst. discriminate.
      * unfold unpack2 in Eu. split_match_hyp Eu; inversion Eu; subst;
          discriminate.
    + destruct (src_bucket (ev_source event)) as [b|]; [|discriminate].
      destruct (src_key (ev_source event)) as [k|]; [|discriminate].
      cbn in Ed.
      destruct (unpack2 _) as [[a fn]|err] eqn:Eu; cbn in Ed.
      * destruct (s3_object W b k); discriminate.
      * unfold unpack2 in Eu. split_match_hyp Eu; inversion Eu; subst;
          discriminate.
Qed.

Lemma first_signature_error (resp : Response) (err : Error) :
  first_signature resp = Err err ->
  err = ValueError \/ err = TypeError \/ err = IndexError
  \/ exists k, err = KeyError k.
Proof.
  unfold first_signature. intro H.
  split_match_hyp H; inversion H; subst; eauto.
Qed.

Lemma b64decode_value_error (v : json) (err : Error) :
  b64decode_value v = Err err -> err = TypeError.
Proof.
  unfold b64decode_value. intro H.
  split_match_hyp H; inversion H; reflexivity.
Qed.

Lemma after_retrieve_no_validation_error
      (W : World) (context : ContextData) (lf : LocalFile) (filename : string)
      (st1 st : State) (fields : list string) :
  after_retrieve W context lf filename st1 <> (Err (ValidationError fields), st).
Proof.
  rewrite after_retrieve_eq. cbv zeta.
  destruct (jar_signature W (data lf)); [|discriminate].
  destruct (UrlParse.urljoin _ _); [|discriminate].
  destruct (http_post W _ _ _) as [resp|]; [|discriminate].
  destruct ((400 <=? status_code resp) && (status_code resp <? 600))%Z;
    [discriminate|].
  destruct (first_signature resp) as [v|err] eqn:Ef.
  - destruct (b64decode_value v) as [sg|err] eqn:Eb.
    + destruct (jar_make_signed W (data lf) sg "mozilla.rsa");
        [|discriminate].
      destruct (s3_put W _ _ _); discriminate.
    + apply b64decode_value_error in Eb. subst. discriminate.
  - apply first_signature_error in Ef.
    destruct Ef as [-> | [-> | [-> | (k & ->)]]]; discriminate.
Qed.

(** A validation error comes from validation and from nowhere else. *)
Lemma handle_validation_error
      (W : World) (e : RawEvent) (c : RawContext) (fields : list string) :
  fst (handle W e c) = Err (ValidationError fields)
  <-> (SignEvent_load W e = Err (ValidationError fields)
       \/ (is_ok (SignEvent_load W e) = true
           /\ Context_load c = Err (ValidationError fields))).
Proof.
  rewrite handle_stages.
  destruct (SignEvent_load W e) as [event|err].
  - destruct (Context_load c) as [context|err].
    + split.
      * intro H.
        destruct (retrieve_xpi W event initial) as [[[lf fn]|err] st1] eqn:Hr.
        -- destruct (after_retrieve W context lf fn st1) as [r st] eqn:Ha.
           cbn in H. subst r.
           destruct (after_retrieve_no_validation_error _ _ _ _ _ _ _ Ha).
        -- cbn in H. inversion H; subst.
           destruct (retrieve_xpi_no_validation_error _ _ _ _ _ Hr).
      * intros [H | [_ H]]; discriminate H.
    + cbn. split.
      * intro H. inversion H. right. split; reflexivity.
      * intros [H | [_ H]]; [discriminate H | inversion H; reflexivity].
  - cbn. split.
    + intro H. inversion H. left. reflexivity.
    + intros [H | [H _]]; [inversion H; reflexivity | discriminate H].
Qed.

(** X2.  The handler fails with a validation error exactly when the
    event or, the event being valid, the context fails validation, with
    the field names validation gave; it has then made no call and written
    no file.  No later stage raises a validation error. *)
Theorem X2_validation_error_means_no_call
        (W : World) (e : RawEvent) (c : RawContext) (fields : list string) :
  (fst (handle W e c) = Err (ValidationError fields)
   <-> (SignEvent_load W e = Err (ValidationError fields)
        \/ (is_ok (SignEvent_load W e) = true
            /\ Context_load c = Err (ValidationError fields))))
  /\ (fst (handle W e c) = Err (ValidationError fields) ->
      snd (handle W e c) = initial).
Proof.
  split; [apply handle_validation_error|].
  intro H. apply handle_validation_error in H.
  rewrite handle_stages.
  destruct H as [E | [Hok E]].
  - rewrite E. reflexivity.
  - destruct (SignEvent_load W e); [|discriminate Hok].
    rewrite E. reflexivity.
Qed.

(** X2, on an event without source and a valid context. *)
Lemma X2_witness :
  snd (handle (example_world None 200) (mkRawEvent SrcMissing Missing)
              example_context) = initial.
Proof.
  apply (proj2 (X2_validation_error_means_no_call
                  (example_world None 200) (mkRawEvent SrcMissing Missing)
                  example_context ["source"])).
  reflexivity.
Defined.



(** X4.  An event whose [source] entry is missing, [null] or not an
    object fails validation with an error that names [source], and no
    call is made. *)
Theorem X4_source_is_required
        (W : World) (e : RawEvent) (c : RawContext) :
  (forall url bucket key, raw_source e <> SrcObject url bucket key) ->
  exists fields,
    handle W e c = (Err (ValidationError fields), initial)
    /\ In "source" fields.
Proof.
  intro Hs. rewrite handle_stages. unfold SignEvent_load.
  destruct (raw_source e) as [| | |url bucket key];
    try (destruct (Hs url bucket key eq_refl));
    (destruct (String_field false (raw_checksum e)); cbn;
     (eexists; split; [reflexivity | left; reflexivity])).
Qed.

(** X4, on an event whose source is [null]. *)
Lemma X4_witness :
  exists fields,
    handle (example_world None 200) (mkRawEvent SrcNull (Str fixture_sha256))
           example_context
    = (Err (ValidationError fields), initial)
    /\ In "source" fields.
Proof.
  apply (X4_source_is_required
           (example_world None 200) (mkRawEvent SrcNull (Str fixture_sha256))
           example_context).
  intros url bucket key. simpl. discriminate.
Defined.

(** X5.  When the GET of the package fails, or is answered with a 4xx or
    5xx status, the invocation fails with the connection error, or with
    the HTTP error of that status; the GET is the only call made and
    nothing is written. *)
Theorem X5_failed_download
        (W : World) (e : RawEvent) (c : RawContext)
        (event : EventData) (context : ContextData) (u : string) :
  SignEvent_load W e = Ok event ->
  Context_load c = Ok context ->
  src_url (ev_source event) = Some u ->
  Py.nonempty u = true ->
  (http_get W u = None ->
   handle W e c = (Err ConnectionError, mkState [HttpGet u] []))
  /\ (forall response,
         http_get W u = Some response ->
         (400 <= status_code response < 600)%Z ->
         handle W e c
         = (Err (HTTPError (status_code response)), mkState [HttpGet u] [])).
Proof.
  intros Hev Hctx Hu Hn.
  assert (Hd : forall st,
             retrieve_xpi_download W event st
             = (url <- getitem (Some u) "url" ;;
                response <- requests_get W url ;;
                raise_for_status response ;;;
                '(_, filename) <-
                  lift (unpack2 (Py.rsplit1 "/" (Py.strip_char "/" url))) ;;
                header_filename <- lift (extract_response_filename response) ;;
                ret (Some url, Py.or_else header_filename filename,
                     fold_left write (iter_content response CHUNK_SIZE)
                               (NamedTemporaryFile W))) st).
  { intro st. unfold retrieve_xpi_download. rewrite Hu. cbn [Py.truthy].
    rewrite Hn. reflexivity. }
  split.
  - intro Hget. rewrite handle_stages, Hev, Hctx.
    unfold retrieve_xpi, bind at 1. rewrite Hd. unfold_io. cbn.
    rewrite Hget. reflexivity.
  - intros response Hget Hstatus. apply status_4xx_5xx in Hstatus.
    rewrite handle_stages, Hev, Hctx.
    unfold retrieve_xpi, bind at 1. rewrite Hd. unfold_io. cbn.
    rewrite Hget, Hstatus. reflexivity.
Qed.

(** X5, on the fixture with an unknown URL accepted by validation. *)
Lemma X5_witness :
  let W := mkWorld (fun _ => true) "/tmp/tmpk3Zl9f"
                   (fun _ => Some (mkResponse 404 None "Not Found" None))
                   (fun _ _ => None) (fun _ => None) (fun _ _ _ => None)
                   (fun _ _ _ => None) (fun _ _ _ => false) in
  handle W (url_event (Str fixture_sha256)) example_context
  = (Err (HTTPError 404), mkState [HttpGet fixture_url] []).
Proof.
  intro W.
  refine (proj2 (X5_failed_download
                   W (url_event (Str fixture_sha256)) example_context
                   (mkEvent (mkSource (Some fixture_url) None None)
                            (Some fixture_sha256))
                   (mkContext
                      (mkAutograph "alice" "secret"
                                   "https://autograph.example.com/api/"
                                   "extensions-ecdsa")
                      "signed-addons")
                   fixture_url eq_refl eq_refl eq_refl eq_refl)
                (mkResponse 404 None "Not Found" None) eq_refl _).
  simpl. lia.
Defined.

(** X6.  An event without a checksum entry passes validation like one
    with a checksum; the package is downloaded, and only then does the
    invocation fail, with [KeyError] for [checksum]. *)
Theorem X6_missing_checksum_fails_after_download
        (W : World) (source : RawSource) (c : RawContext)
        (event : EventData) (context : ContextData)
        (url : option string) (filename : string) (lf : LocalFile)
        (st1 : State) :
  SignEvent_load W (mkRawEvent source Missing) = Ok event ->
  Context_load c = Ok context ->
  retrieve_xpi_download W event initial = (Ok (url, filename, lf), st1) ->
  ev_checksum event = None
  /\ handle W (mkRawEvent source Missing) c = (Err (KeyError "checksum"), st1)
  /\ exists ev, trace st1 = [ev] /\ stage ev = 0.
Proof.
  intros Hev Hctx Hd.
  assert (Hc : ev_checksum event = None).
  { unfold SignEvent_load in Hev. cbn [raw_source raw_checksum] in Hev.
    destruct (match source with
              | SrcObject url0 bucket key =>
                  let '(d, errors) := SourceInfo_load W url0 bucket key in
                  (d, map (fun f => "source." ++ f) errors)
              | _ => (mkSource None None None, ["source"])
              end) as [src errors].
    cbn in Hev. destruct (errors ++ [])%list; inversion Hev. reflexivity. }
  split; [exact Hc|]. split.
  - rewrite handle_stages, Hev, Hctx. unfold retrieve_xpi, bind.
    rewrite Hd, retrieve_xpi_verify_eq, Hc. reflexivity.
  - destruct (retrieve_xpi_download_calls _ _ _ _ _ Hd)
      as [(Hok & _) | (ev & Ht & Hs)]; [discriminate Hok|].
    exists ev. split; [exact Ht | exact Hs].
Qed.

(** X6, on the fixture. *)
Lemma X6_witness :
  handle (example_world None 200) (url_event Missing) example_context
  = (Err (KeyError "checksum"), mkState [HttpGet fixture_url] []).
Proof.
  pose proof (X6_missing_checksum_fails_after_download
                (example_world None 200)
                (SrcObject (Str fixture_url) Missing Missing)
                example_context
                (mkEvent (mkSource (Some fixture_url) None None) None)
                (mkContext
                   (mkAutograph "alice" "secret"
                                "https://autograph.example.com/api/"
                                "extensions-ecdsa")
                   "signed-addons")
                (Some fixture_url) "a.xpi"
                (mkLocalFile "/tmp/tmpk3Zl9f" fixture_bytes 16)
                (mkState [HttpGet fixture_url] [])
                eq_refl eq_refl) as H.
  assert (Hd : retrieve_xpi_download (example_world None 200)
                 (mkEvent (mkSource (Some fixture_url) None None) None)
                 initial
               = (Ok (Some fixture_url, "a.xpi",
                      mkLocalFile "/tmp/tmpk3Zl9f" fixture_bytes 16),
                  mkState [HttpGet fixture_url] []))
    by (vm_compute; reflexivity).
  exact (proj1 (proj2 (H Hd))).
Defined.

(** *** Streaming and the staged file *)




(** X8.  When retrieval returns, the file it hands on is positioned at
    its start, carries the name of the temporary file, and holds exactly
    the bytes the source designates, whose SHA-256 hex digest is the
    checksum of the event; retrieval has written no other file. *)
Theorem X8_retrieved_file
        (W : World) (event : EventData) (st st' : State)
        (lf : LocalFile) (filename : string) :
  retrieve_xpi W event st = (Ok (lf, filename), st') ->
  pos lf = 0%N
  /\ name lf = tmp_name W
  /\ fetched W event = Some (data lf)
  /\ ev_checksum event = Some (SHA256.hexdigest (data lf))
  /\ disk st' = disk st.
Proof.
  intro H.
  destruct (retrieve_xpi_spec _ _ _ _ _ H) as (Hdisk & _ & Hok).
  destruct (Hok lf filename eq_refl) as (Hf & Hc & Hn).
  repeat split; auto.
  unfold retrieve_xpi, bind in H.
  destruct (retrieve_xpi_download W event st) as [[[[u fn] lf0]|err] st1];
    [|discriminate H].
  rewrite retrieve_xpi_verify_eq in H.
  destruct (ev_checksum event); [|discriminate H].
  destruct (String.eqb _ _); [|destruct u; discriminate H].
  inversion H. reflexivity.
Qed.

(** X8, on the fixture. *)
Lemma X8_witness :
  fetched (example_world None 200)
          (mkEvent (mkSource (Some fixture_url) None None)
                   (Some fixture_sha256))
  = Some fixture_bytes.
Proof.
  assert (H : retrieve_xpi (example_world None 200)
                (mkEvent (mkSource (Some fixture_url) None None)
                         (Some fixture_sha256)) initial
              = (Ok (mkLocalFile "/tmp/tmpk3Zl9f" fixture_bytes 0, "a.xpi"),
                 mkState [HttpGet fixture_url] []))
    by (vm_compute; reflexivity).
  exact (proj1 (proj2 (proj2 (X8_retrieved_file _ _ _ _ _ _ H)))).
Defined.

(** *** The derived filename *)

Lemma rcut_none (sep : ascii) (s : string) :
  Py.rcut sep s = None <-> Py.contains sep s = false.
Proof.
  induction s as [|c s IH]; simpl; [tauto|].
  destruct (Py.rcut sep s) as [[a b]|].
  - split; [discriminate|]. intro H.
    apply orb_false_iff in H. destruct H as [_ H].
    apply IH in H. discriminate H.
  - rewrite (Ascii.eqb_sym sep c).
    destruct (Ascii.eqb c sep); simpl.
    + split; discriminate.
    + split; intros _; [now apply IH | reflexivity].
Qed.

(** Cutting at the last separator: the two parts and the separator make
    up the string, and the second part has no separator. *)
Lemma rcut_some (sep : ascii) (s : string) :
  forall a b,
    Py.rcut sep s = Some (a, b) ->
    s = a ++ String sep b /\ Py.contains sep b = false.
Proof.
  induction s as [|c s IH]; intros a b; simpl; [discriminate|].
  destruct (Py.rcut sep s) as [[a' b']|] eqn:E.
  - intro H; inversion H; subst.
    destruct (IH a' b eq_refl) as (-> & Hb). auto.
  - destruct (Ascii.eqb_spec c sep) as [->|Hne]; [|discriminate].
    intro H; inversion H; subst. split; [reflexivity|].
    now apply rcut_none.
Qed.

(** What is left after [rstrip] does not end in a stripped character. *)
Lemma rstrip_last (p : ascii -> bool) (s : string) :
  forall a c, Py.rstrip p s = a ++ String c EmptyString -> p c = false.
Proof.
  induction s as [|x s IH]; intros a c; simpl.
  - destruct a; discriminate.
  - destruct (Py.rstrip p s) as [|y r] eqn:E.
    + destruct (p x) eqn:Px.
      * destruct a; discriminate.
      * destruct a as [|z a]; simpl; intro H; inversion H; subst.
        -- exact Px.
        -- destruct a; discriminate.
    + destruct a as [|z a]; simpl; intro H; inversion H; subst.
      apply (IH a c). assumption.
Qed.

Lemma unpack2_rsplit1 (sep : ascii) (s a b : string) :
  unpack2 (Py.rsplit1 sep s) = Ok (a, b) ->
  s = a ++ String sep b /\ Py.contains sep b = false.
Proof.
  unfold Py.rsplit1.
  destruct (Py.rcut sep s) as [[a' b']|] eqn:E; cbn; [|discriminate].
  intro H; inversion H; subst. now apply rcut_some.
Qed.

Lemma or_else_nonempty (h : option string) (s : string) :
  s <> EmptyString -> Py.or_else h s <> EmptyString.
Proof.
  intro Hs. destruct h as [[|c t]|]; simpl; auto. discriminate.
Qed.

(** X9.  After a retrieval by URL the derived filename is never empty:
    it is the filename of the Content-Disposition header when that is
    found and not empty, and otherwise what follows the last [/] of the
    URL once the slashes at its ends are removed, which is not empty and
    contains no [/]. *)
Theorem X9_url_filename
        (W : World) (event : EventData) (st st' : State)
        (u filename : string) (lf : LocalFile) :
  retrieve_xpi_download W event st = (Ok (Some u, filename, lf), st') ->
  exists response header_filename dir last,
    http_get W u = Some response
    /\ extract_response_filename response = Ok header_filename
    /\ Py.strip_char "/" u = dir ++ "/" ++ last
    /\ Py.contains "/" last = false
    /\ last <> EmptyString
    /\ filename = Py.or_else header_filename last
    /\ filename <> EmptyString.
Proof.
  unfold retrieve_xpi_download.
  destruct (Py.truthy (src_url (ev_source event))); unfold_io; intro H.
  - destruct (src_url (ev_source event)) as [u'|]; [|discriminate H].
    cbn in H.
    destruct (http_get W u') as [response|] eqn:Hget; [|discriminate H].
    destruct ((400 <=? status_code response)
              && (status_code response <? 600))%Z; [discriminate H|].
    destruct (unpack2 (Py.rsplit1 "/" (Py.strip_char "/" u')))
      as [[dir last]|err] eqn:Hu; cbn in H; [|discriminate H].
    destruct (extract_response_filename response) as [hf|err] eqn:He;
      [|discriminate H].
    inversion H; subst; clear H.
    destruct (unpack2_rsplit1 _ _ _ _ Hu) as (Hs & Hlast).
    assert (Hne : last <> EmptyString).
    { intros ->. unfold Py.strip_char, Py.strip_with in Hs.
      pose proof (rstrip_last _ _ _ _ Hs) as Hp. discriminate Hp. }
    exists response, hf, dir, last.
    repeat split; auto. now apply or_else_nonempty.
  - destruct (src_bucket (ev_source event)); [|discriminate H].
    destruct (src_key (ev_source event)) as [k|]; [|discriminate H].
    cbn in H.
    destruct (unpack2 (Py.rsplit1 "/" k)) as [[a fn]|]; cbn in H;
      [|discriminate H].
    destruct (s3_object W _ k); discriminate H.
Qed.

(** X9, on the fixture. *)
Lemma X9_witness :
  exists response header_filename dir last,
    http_get (example_world None 200) fixture_url = Some response
    /\ extract_response_filename response = Ok header_filename
    /\ Py.strip_char "/" fixture_url = dir ++ "/" ++ last
    /\ Py.contains "/" last = false
    /\ last <> EmptyString
    /\ "a.xpi" = Py.or_else header_filename last
    /\ "a.xpi" <> EmptyString.
Proof.
  apply (X9_url_filename
           (example_world None 200)
           (mkEvent (mkSource (Some fixture_url) None None)
                    (Some fixture_sha256))
           initial (mkState [HttpGet fixture_url] [])
           fixture_url "a.xpi"
           (mkLocalFile "/tmp/tmpk3Zl9f" fixture_bytes 16)).
  vm_compute. reflexivity.
Defined.

(** X10.  A retrieval from the object store whose key contains no [/]
    raises [ValueError] before the object store is called. *)
Theorem X10_key_without_slash
        (W : World) (event : EventData) (st : State) (b k : string) :
  Py.truthy (src_url (ev_source event)) = false ->
  src_bucket (ev_source event) = Some b ->
  src_key (ev_source event) = Some k ->
  Py.contains "/" k = false ->
  retrieve_xpi W event st = (Err ValueError, st).
Proof.
  intros Hu Hb Hk Hs.
  unfold retrieve_xpi, retrieve_xpi_download, bind at 1.
  rewrite Hu, Hb, Hk. unfold_io. cbn.
  unfold Py.rsplit1. apply rcut_none in Hs. rewrite Hs. reflexivity.
Qed.

(** X10, on a key at the top of the bucket. *)
Lemma X10_witness :
  retrieve_xpi (example_world None 200)
               (mkEvent (mkSource None (Some "incoming") (Some "a.xpi"))
                        (Some fixture_sha256)) initial
  = (Err ValueError, initial).
Proof.
  apply (X10_key_without_slash
           (example_world None 200)
           (mkEvent (mkSource None (Some "incoming") (Some "a.xpi"))
                    (Some fixture_sha256))
           initial "incoming" "a.xpi");
    reflexivity.
Defined.

(** The shape of a retrieval from the object store that returned. *)
Lemma stored_object_retrieval_shape
        (W : World) (event : EventData) (st st' : State)
        (filename : string) (lf : LocalFile) :
  retrieve_xpi_download W event st = (Ok (None, filename, lf), st') ->
  exists b k dir,
    src_bucket (ev_source event) = Some b
    /\ src_key (ev_source event) = Some k
    /\ k = dir ++ "/" ++ filename
    /\ Py.contains "/" filename = false
    /\ s3_object W b k = Some (data lf)
    /\ trace st' = (trace st ++ [S3Download b k])%list.
Proof.
  unfold retrieve_xpi_download.
  destruct (Py.truthy (src_url (ev_source event))); unfold_io; intro H.
  - destruct (src_url (ev_source event)) as [u|]; [|discriminate H].
    cbn in H.
    destruct (http_get W u) as [response|]; [|discriminate H].
    destruct ((400 <=? status_code response)
              && (status_code response <? 600))%Z; [discriminate H|].
    destruct (unpack2 _) as [[a fn]|]; cbn in H; [|discriminate H].
    destruct (extract_response_filename response); discriminate H.
  - destruct (src_bucket (ev_source event)) as [b|]; [|discriminate H].
    destruct (src_key (ev_source event)) as [k|]; [|discriminate H].
    cbn in H.
    destruct (unpack2 (Py.rsplit1 "/" k)) as [[dir fn]|] eqn:Hu; cbn in H;
      [|discriminate H].
    destruct (s3_object W b k) as [body|] eqn:Ho; [|discriminate H].
    inversion H; subst; clear H.
    destruct (unpack2_rsplit1 _ _ _ _ Hu) as (Hs & Hlast).
    destruct (downloaded_file W body) as (Hd & _).
    exists b, k, dir. rewrite Hd. repeat split; auto.
Qed.

(** X11.  After a retrieval from the object store, the one call made is
    the download of the event's bucket and key; the file holds the
    object; and the derived filename is what follows the last [/] of the
    key, so it contains no [/]. *)
Theorem X11_stored_object_retrieval
        (W : World) (event : EventData) (st st' : State)
        (filename : string) (lf : LocalFile) :
  retrieve_xpi_download W event st = (Ok (None, filename, lf), st') ->
  exists b k dir,
    src_bucket (ev_source event) = Some b
    /\ src_key (ev_source event) = Some k
    /\ k = dir ++ "/" ++ filename
    /\ Py.contains "/" filename = false
    /\ s3_object W b k = Some (data lf)
    /\ trace st' = (trace st ++ [S3Download b k])%list.
Proof. exact (stored_object_retrieval_shape W event st st' filename lf). Qed.

(** X11, on the fixture. *)
Lemma X11_witness :
  exists b k dir,
    Some "incoming" = Some b
    /\ Some "addons/a.xpi" = Some k
    /\ k = dir ++ "/" ++ "a.xpi"
    /\ Py.contains "/" "a.xpi" = false
    /\ s3_object (example_world None 200) b k = Some fixture_bytes
    /\ [S3Download "incoming" "addons/a.xpi"]
       = ([] ++ [S3Download b k])%list.
Proof.
  apply (X11_stored_object_retrieval
           (example_world None 200)
           (mkEvent (mkSource None (Some "incoming") (Some "addons/a.xpi"))
                    (Some fixture_sha256))
           initial (mkState [S3Download "incoming" "addons/a.xpi"] [])
           "a.xpi" (mkLocalFile "/tmp/tmpk3Zl9f" fixture_bytes 16)).
  vm_compute. reflexivity.
Defined.

(** *** The Content-Disposition header *)

Lemma contains_lstrip (p : ascii -> bool) (c : ascii) (s : string) :
  p c = false -> Py.contains c (Py.lstrip p s) = Py.contains c s.
Proof.
  intro Hc. induction s as [|x s IH]; simpl; [reflexivity|].
  destruct (p x) eqn:Px; [|reflexivity].
  rewrite IH. destruct (Ascii.eqb_spec c x) as [->|]; [congruence | reflexivity].
Qed.

Lemma contains_rstrip (p : ascii -> bool) (c : ascii) (s : string) :
  p c = false -> Py.contains c (Py.rstrip p s) = Py.contains c s.
Proof.
  intro Hc. induction s as [|x s IH]; simpl; [reflexivity|].
  destruct (Py.rstrip p s) as [|y r].
  - rewrite <- IH. simpl. destruct (p x) eqn:Px; simpl; [|reflexivity].
    destruct (Ascii.eqb_spec c x) as [->|]; [congruence | reflexivity].
  - simpl in *. now rewrite IH.
Qed.

Lemma split1_contains (sep : ascii) (s : string) :
  Py.contains sep s = true -> exists a b, Py.split1 sep s = [a; b].
Proof.
  induction s as [|c s IH]; simpl; [discriminate|].
  rewrite (Ascii.eqb_sym sep c).
  destruct (Ascii.eqb c sep); simpl; [eauto|].
  intro H. destruct (IH H) as (a & b & ->). eauto.
Qed.

Lemma filename_parameter_total (parameters : list string) :
  (forall p, In p parameters -> Py.contains "=" p = true) ->
  exists r, filename_parameter parameters = Ok r.
Proof.
  induction parameters as [|p l IH]; intro H; cbn [filename_parameter].
  - eauto.
  - assert (Hp : Py.contains "=" (Py.strip p) = true).
    { unfold Py.strip, Py.strip_with.
      rewrite contains_rstrip, contains_lstrip by reflexivity.
      apply H. left. reflexivity. }
    destruct (split1_contains _ _ Hp) as (a & b & ->). cbn.
    destruct (String.eqb a "filename"); [eauto|].
    apply IH. intros q Hq. apply H. right. exact Hq.
Qed.

(** X12.  [extract_response_filename] raises nothing when every
    parameter after the first of the header contains [=] (and when there
    is no header). *)
Theorem X12_header_with_wellformed_parameters (response : Response) :
  (forall h p,
      content_disposition response = Some h ->
      In p (tl (Py.split ";" h)) ->
      Py.contains "=" p = true) ->
  exists r, extract_response_filename response = Ok r.
Proof.
  intro H. unfold extract_response_filename.
  destruct (content_disposition response) as [h|]; [|eauto].
  destruct (negb (Py.nonempty h)); [eauto|].
  destruct (negb _); [eauto|].
  apply filename_parameter_total. intros p Hp. exact (H h p eq_refl Hp).
Qed.

(** X12, on a header with a size parameter before the filename. *)
Lemma X12_witness :
  exists r,
    extract_response_filename
      (mkResponse 200 (Some "attachment; size=16; filename=pkg.xpi")
                  fixture_bytes None)
    = Ok r.
Proof.
  apply (X12_header_with_wellformed_parameters
           (mkResponse 200 (Some "attachment; size=16; filename=pkg.xpi")
                       fixture_bytes None)).
  intros h p Hh Hp. simpl in Hh. inversion Hh; subst h. simpl in Hp.
  destruct Hp as [<- | [<- | []]]; reflexivity.
Defined.

Lemma split_no_sep (sep : ascii) (s : string) :
  Py.contains sep s = false -> Py.split sep s = [s].
Proof.
  induction s as [|c s IH]; simpl; [reflexivity|].
  rewrite (Ascii.eqb_sym sep c).
  destruct (Ascii.eqb c sep); simpl; [discriminate|].
  intro H. now rewrite (IH H).
Qed.

Lemma split_at_sep (sep : ascii) (a s : string) :
  Py.contains sep a = false ->
  Py.split sep (a ++ String sep s) = a :: Py.split sep s.
Proof.
  induction a as [|c a IH]; simpl.
  - intros _. now rewrite Ascii.eqb_refl.
  - rewrite (Ascii.eqb_sym sep c).
    destruct (Ascii.eqb c sep); simpl; [discriminate|].
    intro H. now rewrite (IH H).
Qed.

(** [rstrip] stops at a character it does not strip. *)
Lemma rstrip_keep (p : ascii -> bool) (a : string) (c : ascii) (v : string) :
  p c = false ->
  Py.rstrip p (a ++ String c v) = a ++ String c (Py.rstrip p v).
Proof.
  intro Hc. induction a as [|x a IH]; simpl.
  - destruct (Py.rstrip p v); [now rewrite Hc | reflexivity].
  - rewrite IH. destruct a; reflexivity.
Qed.

(** The value of the filename parameter in a header that consists of the
    word [attachment] and that one parameter. *)
Lemma attachment_filename_value (v : string) (response : Response) :
  content_disposition response = Some ("attachment; filename=" ++ v) ->
  Py.contains ";" v = false ->
  extract_response_filename response
  = Ok (Some (Rfc822.unquote (Py.rstrip Py.isspace v))).
Proof.
  intros Hh Hv. unfold extract_response_filename. rewrite Hh.
  cbn [append Py.nonempty negb].
  change (String "a" (String "t" (String "t" (String "a" (String "c"
           (String "h" (String "m" (String "e" (String "n" (String "t"
           (String ";" (String " " (String "f" (String "i" (String "l"
           (String "e" (String "n" (String "a" (String "m" (String "e"
           (String "=" v)))))))))))))))))))))
    with ("attachment" ++ String ";" (" filename=" ++ v)).
  rewrite split_at_sep by reflexivity.
  rewrite split_no_sep by (simpl; exact Hv).
  cbn [hd tl]. change (Py.strip "attachment") with "attachment".
  cbn [String.eqb Ascii.eqb Bool.eqb negb filename_parameter].
  assert (Hs : Py.strip (" filename=" ++ v)
               = "filename=" ++ Py.rstrip Py.isspace v).
  { unfold Py.strip, Py.strip_with.
    change (Py.lstrip Py.isspace (" filename=" ++ v))
      with ("filename" ++ String "=" v).
    now rewrite rstrip_keep by reflexivity. }
  rewrite Hs. reflexivity.
Qed.

(** X13.  For a header that consists of [attachment] and a filename
    parameter, the extracted name is the value of the parameter without
    its trailing white space and unquoted, whatever the value is, as long
    as it contains no semicolon. *)
Theorem X13_filename_parameter_value (v : string) (response : Response) :
  content_disposition response = Some ("attachment; filename=" ++ v) ->
  Py.contains ";" v = false ->
  extract_response_filename response
  = Ok (Some (Rfc822.unquote (Py.rstrip Py.isspace v))).
Proof. exact (attachment_filename_value v response). Qed.

(** X13, on an unquoted name with a directory in it. *)
Lemma X13_witness :
  extract_response_filename
    (mkResponse 200 (Some "attachment; filename=../up/pkg.xpi  ")
                fixture_bytes None)
  = Ok (Some "../up/pkg.xpi").
Proof.
  apply (X13_filename_parameter_value
           "../up/pkg.xpi  "
           (mkResponse 200 (Some "attachment; filename=../up/pkg.xpi  ")
                       fixture_bytes None));
    reflexivity.
Defined.

Lemma replace2_two (a b : ascii) (new : string) (c d : ascii) (rest : string) :
  Py.replace2 a b new (String c (String d rest))
  = if (Ascii.eqb c a && Ascii.eqb d b)%bool
    then new ++ Py.replace2 a b new rest
    else String c (Py.replace2 a b new (String d rest)).
Proof. reflexivity. Qed.

Lemma replace2_absent (a b : ascii) (new s : string) :
  Py.contains a s = false -> Py.replace2 a b new s = s.
Proof.
  induction s as [|c s IH]; [reflexivity|].
  intro H. cbn [Py.contains] in H.
  apply orb_false_iff in H. destruct H as [Hc H].
  destruct s as [|d rest]; [reflexivity|].
  rewrite replace2_two, (Ascii.eqb_sym c a), Hc. cbn [andb].
  now rewrite (IH H).
Qed.

Lemma init_last (s : string) (c : ascii) :
  Py.init (s ++ String c EmptyString) = s.
Proof.
  induction s as [|x s IH]; [reflexivity|].
  simpl append. cbn [Py.init]. rewrite IH.
  destruct s; reflexivity.
Qed.

Lemma endswith_last (s : string) (c : ascii) :
  Py.endswith c (s ++ String c EmptyString) = true.
Proof.
  induction s as [|x s IH]; simpl.
  - apply Ascii.eqb_refl.
  - destruct s; simpl in *; exact IH.
Qed.

Lemma length_append (a b : string) :
  String.length (a ++ b) = String.length a + String.length b.
Proof. induction a as [|x a IH]; simpl; [reflexivity | now rewrite IH]. Qed.

Lemma unquote_quoted (s : string) :
  Py.contains "\" s = false -> Rfc822.unquote (quoted s) = s.
Proof.
  intro H. unfold Rfc822.unquote, quoted.
  assert (Hlen : Nat.ltb 1 (String.length
                              (String Rfc822.dquote
                                 (s ++ String Rfc822.dquote EmptyString)))
                 = true).
  { apply Nat.ltb_lt. simpl. rewrite length_append. simpl. lia. }
  rewrite Hlen. cbn [Py.startswith]. rewrite Ascii.eqb_refl.
  change (Py.endswith Rfc822.dquote
            (String Rfc822.dquote (s ++ String Rfc822.dquote EmptyString)))
    with (Py.endswith Rfc822.dquote
            ((String Rfc822.dquote s) ++ String Rfc822.dquote EmptyString)).
  rewrite endswith_last. cbn [andb Py.middle].
  rewrite init_last, !replace2_absent; auto.
  now rewrite replace2_absent.
Qed.

Lemma contains_append (c : ascii) (a b : string) :
  Py.contains c (a ++ b) = (Py.contains c a || Py.contains c b)%bool.
Proof.
  induction a as [|x a IH]; simpl; [reflexivity|].
  now rewrite IH, orb_assoc.
Qed.

(** X14.  For a header [attachment; filename="name"], the extracted name
    is [name], for every name without semicolon and backslash. *)
Theorem X14_quoted_filename (nm : string) (response : Response) :
  content_disposition response
  = Some ("attachment; filename=" ++ quoted nm) ->
  Py.contains ";" nm = false ->
  Py.contains "\" nm = false ->
  extract_response_filename response = Ok (Some nm).
Proof.
  intros Hh Hsemi Hback.
  rewrite (attachment_filename_value (quoted nm) response Hh).
  - unfold quoted at 1.
    change (String Rfc822.dquote (nm ++ String Rfc822.dquote EmptyString))
      with ((String Rfc822.dquote nm) ++ String Rfc822.dquote EmptyString).
    rewrite rstrip_keep by reflexivity.
    cbn [Py.rstrip].
    change ((String Rfc822.dquote nm) ++ String Rfc822.dquote EmptyString)
      with (quoted nm).
    now rewrite unquote_quoted.
  - unfold quoted. cbn [Py.contains]. rewrite contains_append, Hsemi.
    reflexivity.
Qed.

(** X14, on a plain name. *)
Lemma X14_witness :
  extract_response_filename
    (mkResponse 200 (Some ("attachment; filename=" ++ quoted "pkg.xpi"))
                fixture_bytes None)
  = Ok (Some "pkg.xpi").
Proof.
  apply (X14_quoted_filename
           "pkg.xpi"
           (mkResponse 200 (Some ("attachment; filename=" ++ quoted "pkg.xpi"))
                       fixture_bytes None));
    reflexivity.
Defined.

(** *** The name of the signed file *)

Lemma rfind_none (c : ascii) (s : string) :
  Py.rfind c s = None -> Py.contains c s = false.
Proof.
  induction s as [|d s IH]; simpl; [reflexivity|].
  destruct (Py.rfind c s); [discriminate|].
  destruct (Ascii.eqb c d); [discriminate|].
  intros _. now apply IH.
Qed.

(** At the position [rfind] gives, the string has the character. *)
Lemma rfind_some (c : ascii) (s : string) :
  forall i, Py.rfind c s = Some i ->
            exists rest, Py.drop i s = String c rest.
Proof.
  induction s as [|d s IH]; intro i; simpl; [discriminate|].
  destruct (Py.rfind c s) as [j|] eqn:E.
  - intro H; inversion H; subst.
    destruct (N.eqb_spec (N.succ j) 0) as [E0|_]; [lia|].
    rewrite N.pred_succ. now apply IH.
  - destruct (Ascii.eqb_spec c d) as [->|]; [|discriminate].
    intro H; inversion H; subst. simpl. eauto.
Qed.

(** The two parts [splitext] returns make up the path, and the second is
    empty or starts with a dot. *)
Lemma splitext_parts (p : string) :
  exists stem ext,
    PosixPath.splitext p = (stem, ext)
    /\ stem ++ ext = p
    /\ (ext = EmptyString \/ Py.startswith "." ext = true).
Proof.
  unfold PosixPath.splitext.
  destruct (_ && _)%bool eqn:E.
  - eexists _, _. split; [reflexivity|]. split; [apply take_drop|].
    right. unfold PosixPath.rfindZ in *.
    destruct (Py.rfind "." p) as [i|] eqn:Er.
    + rewrite N2Z.id. destruct (rfind_some _ _ _ Er) as (rest & ->).
      reflexivity.
    + apply andb_true_iff in E. destruct E as [E _].
      apply Z.ltb_lt in E.
      destruct (Py.rfind "/" p); lia.
  - exists p, EmptyString. split; [reflexivity|].
    split; [apply append_empty_r | left; reflexivity].
Qed.

Lemma signed_name_length (p : string) :
  String.length (signed_name p) = String.length p + 7.
Proof.
  unfold signed_name.
  destruct (splitext_parts p) as (stem & ext & -> & <- & _).
  rewrite !length_append. simpl. lia.
Qed.

(** X15.  When [sign_xpi] returns, the path of the signed file is the
    path of the staged file with [-signed] put before its extension (at
    its end when it has none): it is seven characters longer, hence never
    the path of the staged file itself, and the signed file has been
    written under it. *)
Theorem X15_signed_file_path
        (W : World) (ag : AutographData) (lf : LocalFile) (guid : string)
        (st st' : State) (out : string) :
  sign_xpi W ag lf guid st = (Ok out, st') ->
  out <> name lf
  /\ String.length out = String.length (name lf) + 7
  /\ (exists stem ext,
         PosixPath.splitext (name lf) = (stem, ext)
         /\ stem ++ ext = name lf
         /\ (ext = EmptyString \/ Py.startswith "." ext = true)
         /\ out = stem ++ "-signed" ++ ext)
  /\ exists signed, disk st' = (out, signed) :: disk st.
Proof.
  rewrite sign_xpi_eq. cbv zeta. intro H.
  split_match_hyp H; try discriminate H.
  inversion H; subst; clear H.
  pose proof (signed_name_length (name lf)) as Hlen.
  split.
  - intro E. rewrite E in Hlen. lia.
  - split; [exact Hlen|]. split.
    + destruct (splitext_parts (name lf)) as (stem & ext & Hs & Hj & He).
      exists stem, ext. unfold signed_name. rewrite Hs. auto.
    + eexists. reflexivity.
Qed.

(** X15, on the fixture. *)
Lemma X15_witness :
  "/tmp/tmpk3Zl9f-signed" <> "/tmp/tmpk3Zl9f".
Proof.
  assert (H : sign_xpi (example_world None 200)
                (mkAutograph "alice" "secret"
                             "https://autograph.example.com/api/"
                             "extensions-ecdsa")
                (mkLocalFile "/tmp/tmpk3Zl9f" fixture_bytes 0)
                "some-fake-guid@example.com" initial
              = (Ok "/tmp/tmpk3Zl9f-signed",
                 mkState
                   [HttpPost "https://autograph.example.com/sign/data"
                             (mkHawkAuth "alice" "secret")
                             (sign_request "c2YtZGlnZXN0" "extensions-ecdsa"
                                           "some-fake-guid@example.com");
                    MakeSigned "signature" "/tmp/tmpk3Zl9f-signed"
                               "mozilla.rsa"]
                   [("/tmp/tmpk3Zl9f-signed",
                     fixture_bytes ++ "signature")]))
    by (vm_compute; reflexivity).
  exact (proj1 (X15_signed_file_path _ _ _ _ _ _ _ H)).
Defined.

(** *** The shape of the digest *)

Lemma length_string_of (l : list Z) :
  String.length (SHA256.string_of l) = List.length l.
Proof. induction l; simpl; auto. Qed.

Lemma length_hex (s : string) :
  String.length (SHA256.hex s) = 2 * String.length s.
Proof. induction s as [|c s IH]; simpl; [reflexivity | rewrite IH; lia]. Qed.

Lemma length_be_bytes (n : nat) (x : Z) :
  List.length (SHA256.be_bytes n x) = n.
Proof.
  induction n as [|n IH]; cbn [SHA256.be_bytes List.length];
    [reflexivity | now rewrite IH].
Qed.

Lemma length_words_bytes (h : list Z) :
  List.length (flat_map (SHA256.be_bytes 4) h) = 4 * List.length h.
Proof.
  induction h as [|x h IH]; cbn [flat_map List.length]; [reflexivity|].
  rewrite List.length_app, length_be_bytes, IH. lia.
Qed.

Lemma length_compress (h block : list Z) :
  List.length (SHA256.compress h block) = 8.
Proof. reflexivity. Qed.

Lemma length_H0 : List.length SHA256.H0 = 8.
Proof. reflexivity. Qed.

Lemma length_blocks (n : nat) :
  forall h bs, List.length h = 8 -> List.length (SHA256.blocks n h bs) = 8.
Proof.
  induction n as [|n IH]; intros h bs Hh; simpl; [exact Hh|].
  apply IH, length_compress.
Qed.

Lemma hex_digits_lower (c : ascii) :
  lower_hex (SHA256.hex_digit (Z.shiftr (SHA256.byte_of c) 4)) = true
  /\ lower_hex (SHA256.hex_digit (Z.land (SHA256.byte_of c) 0xF)) = true.
Proof.
  destruct c as [[] [] [] [] [] [] [] []]; split; reflexivity.
Qed.

Lemma hex_lower (s : string) :
  Py.forallb_str lower_hex (SHA256.hex s) = true.
Proof.
  induction s as [|c s IH]; [reflexivity|].
  cbn [SHA256.hex Py.forallb_str].
  destruct (hex_digits_lower c) as (-> & ->). exact IH.
Qed.

Lemma hexdigest_shape (s : string) :
  String.length (SHA256.hexdigest s) = 64
  /\ Py.forallb_str lower_hex (SHA256.hexdigest s) = true.
Proof.
  unfold SHA256.hexdigest. split; [|apply hex_lower].
  rewrite length_hex. unfold SHA256.digest. cbv zeta.
  rewrite length_string_of, length_words_bytes, length_blocks;
    [reflexivity | apply length_H0].
Qed.

(** X16.  The digest [compute_checksum] returns is always sixty-four
    lowercase hexadecimal digits; so retrieval can only return for an
    event whose checksum is sixty-four lowercase hexadecimal digits. *)
Theorem X16_checksum_shape
        (W : World) (event : EventData) (st st' : State)
        (lf : LocalFile) (filename : string) :
  (forall f, String.length (fst (compute_checksum f)) = 64
             /\ Py.forallb_str lower_hex (fst (compute_checksum f)) = true)
  /\ (retrieve_xpi W event st = (Ok (lf, filename), st') ->
      exists checksum,
        ev_checksum event = Some checksum
        /\ String.length checksum = 64
        /\ Py.forallb_str lower_hex checksum = true).
Proof.
  split.
  - intro f. unfold compute_checksum, read. cbn [fst]. apply hexdigest_shape.
  - intro H.
    destruct (retrieve_xpi_spec _ _ _ _ _ H) as (_ & _ & Hok).
    destruct (Hok lf filename eq_refl) as (_ & Hc & _).
    exists (SHA256.hexdigest (data lf)).
    split; [exact Hc | apply hexdigest_shape].
Qed.

(** X16, on the fixture. *)
Lemma X16_witness :
  exists checksum,
    Some fixture_sha256 = Some checksum
    /\ String.length checksum = 64
    /\ Py.forallb_str lower_hex checksum = true.
Proof.
  assert (H : retrieve_xpi (example_world None 200)
                (mkEvent (mkSource (Some fixture_url) None None)
                         (Some fixture_sha256)) initial
              = (Ok (mkLocalFile "/tmp/tmpk3Zl9f" fixture_bytes 0, "a.xpi"),
                 mkState [HttpGet fixture_url] []))
    by (vm_compute; reflexivity).
  exact (proj2 (X16_checksum_shape _ _ _ _ _ _) H).
Defined.

(** *** From the fetched bytes to the upload *)

(** X17.  In a successful invocation the calls are, in this order: the
    retrieval; the signing request for the payload digest of the fetched
    bytes; the call to the package signer, on the fetched bytes, with the
    decoded signature of the response and the entry name [mozilla.rsa];
    and the upload, to the configured bucket under the returned key, of
    exactly what the package signer produced.  The signed file is the
    only file written. *)
Theorem X17_what_is_uploaded
        (W : World) (e : RawEvent) (c : RawContext)
        (r : UploadResult) (st : State) :
  handle W e c = (Ok r, st) ->
  exists event context body sig url resp v s signed first,
    SignEvent_load W e = Ok event
    /\ Context_load c = Ok context
    /\ fetched W event = Some body
    /\ jar_signature W body = Some sig
    /\ UrlParse.urljoin (server_url (autograph context)) "/sign/data"
       = Some url
    /\ let auth := mkHawkAuth (hawk_id (autograph context))
                              (hawk_secret (autograph context)) in
       let request := sign_request (Base64.b64encode sig)
                                   (key_id (autograph context))
                                   "some-fake-guid@example.com" in
       http_post W url auth request = Some resp
       /\ first_signature resp = Ok v
       /\ b64decode_value v = Ok s
       /\ jar_make_signed W body s "mozilla.rsa" = Some signed
       /\ s3_put W (output_bucket context) (uploaded_key r) signed = true
       /\ stage first = 0
       /\ trace st
          = [first;
             HttpPost url auth request;
             MakeSigned s (signed_name (tmp_name W)) "mozilla.rsa";
             S3Put (output_bucket context) (uploaded_key r) signed]
       /\ disk st = [(signed_name (tmp_name W), signed)].
Proof.
  rewrite handle_stages.
  destruct (SignEvent_load W e) as [event|err]; [|discriminate].
  destruct (Context_load c) as [context|err]; [|discriminate].
  destruct (retrieve_xpi W event initial) as [[[lf fn]|err] st1] eqn:Hr;
    [|discriminate].
  destruct (retrieve_xpi_spec _ _ _ _ _ Hr) as (Hdisk & _ & Hok).
  destruct (Hok lf fn eq_refl) as (Hf & _ & Hname).
  destruct (retrieve_xpi_calls _ _ _ _ _ Hr)
    as [(Hbad & _) | (first & Ht & Hs)]; [discriminate Hbad|].
  rewrite after_retrieve_eq, Hname. cbv zeta. unfold get_guid.
  destruct (jar_signature W (data lf)) as [sig|] eqn:Hsig; [|discriminate].
  destruct (UrlParse.urljoin _ _) as [url|] eqn:Hurl; [|discriminate].
  destruct (http_post W url _ _) as [resp|] eqn:Hpost; [|discriminate].
  destruct ((400 <=? status_code resp) && (status_code resp <? 600))%Z;
    [discriminate|].
  destruct (first_signature resp) as [v|err] eqn:Hv; [|discriminate].
  destruct (b64decode_value v) as [s|err] eqn:Hb; [|discriminate].
  destruct (jar_make_signed W (data lf) s "mozilla.rsa") as [signed|] eqn:Hm;
    [|discriminate].
  destruct (s3_put W (output_bucket context) fn signed) eqn:Hput;
    [|discriminate].
  intro H. inversion H; subst r st; clear H.
  exists event, context, (data lf), sig, url, resp, v, s, signed, first.
  cbn [uploaded_key trace disk push].
  rewrite Ht, Hdisk. cbn.
  repeat split; auto.
Qed.

(** X17, on the fixture. *)
Lemma X17_witness :
  exists event context body sig url resp v s signed first,
    SignEvent_load (example_world None 200) (url_event (Str fixture_sha256))
    = Ok event
    /\ Context_load example_context = Ok context
    /\ fetched (example_world None 200) event = Some body
    /\ jar_signature (example_world None 200) body = Some sig
    /\ UrlParse.urljoin (server_url (autograph context)) "/sign/data"
       = Some url
    /\ let auth := mkHawkAuth (hawk_id (autograph context))
                              (hawk_secret (autograph context)) in
       let request := sign_request (Base64.b64encode sig)
                                   (key_id (autograph context))
                                   "some-fake-guid@example.com" in
       http_post (example_world None 200) url auth request = Some resp
       /\ first_signature resp = Ok v
       /\ b64decode_value v = Ok s
       /\ jar_make_signed (example_world None 200) body s "mozilla.rsa"
          = Some signed
       /\ s3_put (example_world None 200) (output_bucket context)
                 (uploaded_key (mkUploaded "signed-addons" "a.xpi")) signed
          = true
       /\ stage first = 0
       /\ trace (mkState
                   [HttpGet fixture_url;
                    HttpPost "https://autograph.example.com/sign/data"
                             (mkHawkAuth "alice" "secret")
                             (sign_request "c2YtZGlnZXN0" "extensions-ecdsa"
                                           "some-fake-guid@example.com");
                    MakeSigned "signature" "/tmp/tmpk3Zl9f-signed"
                               "mozilla.rsa";
                    S3Put "signed-addons" "a.xpi"
                          (fixture_bytes ++ "signature")]
                   [("/tmp/tmpk3Zl9f-signed", fixture_bytes ++ "signature")])
          = [first;
             HttpPost url auth request;
             MakeSigned s (signed_name (tmp_name (example_world None 200)))
                        "mozilla.rsa";
             S3Put (output_bucket context)
                   (uploaded_key (mkUploaded "signed-addons" "a.xpi")) signed]
       /\ disk (mkState
                  [HttpGet fixture_url;
                   HttpPost "https://autograph.example.com/sign/data"
                            (mkHawkAuth "alice" "secret")
                            (sign_request "c2YtZGlnZXN0" "extensions-ecdsa"
                                          "some-fake-guid@example.com");
                   MakeSigned "signature" "/tmp/tmpk3Zl9f-signed"
                              "mozilla.rsa";
                   S3Put "signed-addons" "a.xpi"
                         (fixture_bytes ++ "signature")]
                  [("/tmp/tmpk3Zl9f-signed", fixture_bytes ++ "signature")])
          = [(signed_name (tmp_name (example_world None 200)), signed)].
Proof.
  apply (X17_what_is_uploaded
           (example_world None 200) (url_event (Str fixture_sha256))
           example_context (mkUploaded "signed-addons" "a.xpi")).
  vm_compute. reflexivity.
Defined.

(** X18.  When the answer to the signing request has a status that is
    neither 4xx nor 5xx but carries no signature that can be extracted
    and base64-decoded, the invocation fails with the error of the
    extraction ([ValueError], [TypeError], [IndexError] or [KeyError]),
    and neither the package signer nor the publisher is called. *)
Theorem X18_undecodable_signature
        (W : World) (e : RawEvent) (c : RawContext)
        (u : string) (a : HawkAuth) (b : json) (resp : Response) :
  In (HttpPost u a b) (trace (snd (handle W e c))) ->
  http_post W u a b = Some resp ->
  ~ (400 <= status_code resp < 600)%Z ->
  (forall v s, first_signature resp = Ok v -> b64decode_value v <> Ok s) ->
  (exists err,
      fst (handle W e c) = Err err
      /\ (err = ValueError \/ err = TypeError \/ err = IndexError
          \/ exists k, err = KeyError k))
  /\ forall ev, In ev (trace (snd (handle W e c))) -> after_signing ev = false.
Proof.
  intros Hin Hresp Hstatus Hbad.
  assert (Hs : ((400 <=? status_code resp) && (status_code resp <? 600))%Z
               = false).
  { destruct (_ && _)%bool eqn:E; [|reflexivity].
    apply status_4xx_5xx in E. contradiction. }
  destruct (signing_stage_inv _ _ _ _ Hin eq_refl)
    as (event & context & lf & fn & st1 & _ & _ & Hr & Hh).
  pose proof (retrieve_xpi_quiet _ _ _ _ Hr) as Hq.
  rewrite Hh in Hin |- *.
  destruct (after_retrieve_request _ _ _ _ _ _ _ _ Hq Hin)
    as (sig & Hsig & Hurl & -> & ->).
  rewrite after_retrieve_eq, Hsig, Hurl. cbv zeta.
  rewrite Hresp, Hs.
  assert (Hquiet : forall ev,
             In ev (trace (push (HttpPost u
                                   (mkHawkAuth (hawk_id (autograph context))
                                      (hawk_secret (autograph context)))
                                   (sign_request (Base64.b64encode sig)
                                      (key_id (autograph context))
                                      (get_guid lf))) st1)) ->
             after_signing ev = false).
  { intros ev Hev. split_in Hev.
    - apply after_signing_stage, Hq, Hev.
    - subst ev. reflexivity. }
  destruct (first_signature resp) as [v|err] eqn:Hv.
  - destruct (b64decode_value v) as [s|err] eqn:Hb.
    + destruct (Hbad v s eq_refl Hb).
    + cbn [fst snd]. split; [|exact Hquiet].
      exists err. split; [reflexivity|].
      apply b64decode_value_error in Hb. auto.
  - cbn [fst snd]. split; [|exact Hquiet].
    exists err. split; [reflexivity|].
    apply first_signature_error in Hv. tauto.
Qed.

(** X18, on a signing service that answers with an empty array. *)
Lemma X18_witness :
  let W := mkWorld (url_regex (example_world None 200)) "/tmp/tmpk3Zl9f"
                   (http_get (example_world None 200))
                   (s3_object (example_world None 200))
                   (fun _ => Some "sf-digest")
                   (fun _ _ _ =>
                      Some (mkResponse 200 None "[]" (Some (JArr []))))
                   (fun d s _ => Some (d ++ s)) (fun _ _ _ => true) in
  exists err,
    fst (handle W (url_event (Str fixture_sha256)) example_context) = Err err
    /\ (err = ValueError \/ err = TypeError \/ err = IndexError
        \/ exists k, err = KeyError k).
Proof.
  intro W.
  refine (proj1 (X18_undecodable_signature
                   W (url_event (Str fixture_sha256)) example_context
                   "https://autograph.example.com/sign/data"
                   (mkHawkAuth "alice" "secret")
                   (sign_request "c2YtZGlnZXN0" "extensions-ecdsa"
                                 "some-fake-guid@example.com")
                   (mkResponse 200 None "[]" (Some (JArr [])))
                   _ eq_refl _ _)).
  - vm_compute. right. left. reflexivity.
  - simpl. lia.
  - intros v s Hv. discriminate Hv.
Defined.

(** *** The credentials and the service URL *)

(** X19.  The id and the secret of the context are used to authenticate
    the signing request and for nothing else: with a signing service
    whose answer does not depend on the credentials, two contexts that
    differ in them give the same result, write the same files and make
    the same calls up to the authentication of the request. *)
Theorem X19_credentials_only_authenticate
        (W : World) (e : RawEvent) (i s i' s' u k b : string) :
  (forall url a a' body, http_post W url a body = http_post W url a' body) ->
  let c := mkRawContext (AgObject (Str i) (Str s) (Str u) (Str k)) (Str b) in
  let c' := mkRawContext (AgObject (Str i') (Str s') (Str u) (Str k))
                         (Str b) in
  fst (handle W e c) = fst (handle W e c')
  /\ map redact (trace (snd (handle W e c)))
     = map redact (trace (snd (handle W e c')))
  /\ disk (snd (handle W e c)) = disk (snd (handle W e c'))
  /\ forall url a body,
      In (HttpPost url a body) (trace (snd (handle W e c))) ->
      a = mkHawkAuth i s.
Proof.
  intros HW c c'.
  assert (Hc : Context_load c = Ok (mkContext (mkAutograph i s u k) b))
    by reflexivity.
  assert (Hc' : Context_load c' = Ok (mkContext (mkAutograph i' s' u k) b))
    by reflexivity.
  rewrite !handle_stages, Hc, Hc'.
  destruct (SignEvent_load W e) as [event|err];
    [|cbn; repeat split; intros ? ? ? []].
  destruct (retrieve_xpi W event initial) as [[[lf fn]|err] st1] eqn:Hr.
  - pose proof (retrieve_xpi_quiet _ _ _ _ Hr) as Hq.
    split; [|split; [|split]].
    4:{ intros url a body Hin.
        destruct (after_retrieve_request _ _ _ _ _ _ _ _ Hq Hin)
          as (sig & _ & _ & -> & _).
        reflexivity. }
    all: rewrite !after_retrieve_eq;
      cbn [autograph hawk_id hawk_secret server_url key_id output_bucket];
      destruct (jar_signature W (data lf)) as [sig|]; [|reflexivity];
      destruct (UrlParse.urljoin u "/sign/data") as [url|]; [|reflexivity];
      cbv zeta;
      rewrite (HW url (mkHawkAuth i s) (mkHawkAuth i' s'));
      destruct (http_post W url _ _) as [resp|];
      [destruct ((400 <=? status_code resp)
                 && (status_code resp <? 600))%Z;
       [|destruct (first_signature resp) as [v|];
         [destruct (b64decode_value v) as [sg|];
          [destruct (jar_make_signed W (data lf) sg "mozilla.rsa")
             as [signed|]|]|]]|];
      cbn [fst snd trace disk push];
      rewrite ?map_app; reflexivity.
  - pose proof (retrieve_xpi_quiet _ _ _ _ Hr) as Hq.
    cbn [fst snd]. repeat split.
    intros url a body Hin.
    destruct (quiet_not_signing _ _ Hq Hin eq_refl).
Qed.

(** X19, on the fixture. *)
Lemma X19_witness :
  fst (handle (example_world None 200) (url_event (Str fixture_sha256))
              example_context)
  = fst (handle (example_world None 200) (url_event (Str fixture_sha256))
                (mkRawContext
                   (AgObject (Str "bob") (Str "other")
                             (Str "https://autograph.example.com/api/")
                             (Str "extensions-ecdsa"))
                   (Str "signed-addons"))).
Proof.
  refine (proj1 (X19_credentials_only_authenticate
                   (example_world None 200) (url_event (Str fixture_sha256))
                   "alice" "secret" "bob" "other"
                   "https://autograph.example.com/api/" "extensions-ecdsa"
                   "signed-addons" _)).
  intros url a a' body. reflexivity.
Defined.

(** Joining [/sign/data] to a base uses the scheme and the authority of
    the base, and no other part of it. *)
Lemma urljoin_sign_data_parts (base : string) (b : UrlParse.ParseResult) :
  base <> EmptyString ->
  UrlParse.urlparse base EmptyString = Some b ->
  UrlParse.urljoin base "/sign/data"
  = Some (if UrlParse.mem (UrlParse.scheme b) UrlParse.uses_relative
          then UrlParse.urlunparse
                 (UrlParse.mkParse
                    (UrlParse.scheme b)
                    (if UrlParse.mem (UrlParse.scheme b) UrlParse.uses_netloc
                     then UrlParse.netloc b else EmptyString)
                    "/sign/data" EmptyString EmptyString EmptyString)
          else "/sign/data").
Proof.
  intros Hne Hb. destruct base as [|x base]; [contradiction|].
  unfold UrlParse.urljoin. cbn [Py.nonempty negb].
  rewrite Hb, urlparse_sign_data.
  cbn [UrlParse.scheme UrlParse.netloc UrlParse.path UrlParse.params
       UrlParse.query UrlParse.fragment].
  rewrite String.eqb_refl. cbn [negb orb].
  destruct (UrlParse.mem (UrlParse.scheme b) UrlParse.uses_relative);
    cbn [negb]; [|reflexivity].
  cbn [Py.nonempty]. rewrite andb_false_r.
  change (String.eqb (Py.take 1 "/sign/data") "/") with true.
  cbv iota.
  destruct (UrlParse.mem (UrlParse.scheme b) UrlParse.uses_netloc);
    reflexivity.
Qed.

(** X20.  The URL of the signing request depends on the service URL of
    the context only through its scheme and its authority: two service
    URLs that agree on both give the same request URL, whatever their
    paths, queries and fragments. *)
Theorem X20_service_url_path_is_ignored
        (ag1 ag2 : AutographData) (p1 p2 : UrlParse.ParseResult) :
  server_url ag1 <> EmptyString ->
  server_url ag2 <> EmptyString ->
  UrlParse.urlparse (server_url ag1) EmptyString = Some p1 ->
  UrlParse.urlparse (server_url ag2) EmptyString = Some p2 ->
  UrlParse.scheme p1 = UrlParse.scheme p2 ->
  UrlParse.netloc p1 = UrlParse.netloc p2 ->
  UrlParse.urljoin (server_url ag1) "/sign/data"
  = UrlParse.urljoin (server_url ag2) "/sign/data".
Proof.
  intros H1 H2 Hp1 Hp2 Hs Hn.
  rewrite (urljoin_sign_data_parts _ _ H1 Hp1),
    (urljoin_sign_data_parts _ _ H2 Hp2), Hs, Hn.
  reflexivity.
Qed.

(** X20, on two service URLs of one host. *)
Lemma X20_witness :
  UrlParse.urljoin "https://autograph.example.com/api/" "/sign/data"
  = UrlParse.urljoin "https://autograph.example.com/v2/sign?dry=1#top"
                     "/sign/data".
Proof.
  refine (X20_service_url_path_is_ignored
            (mkAutograph "alice" "secret"
                         "https://autograph.example.com/api/"
                         "extensions-ecdsa")
            (mkAutograph "alice" "secret"
                         "https://autograph.example.com/v2/sign?dry=1#top"
                         "extensions-ecdsa")
            (UrlParse.mkParse "https" "autograph.example.com" "/api/"
                              EmptyString EmptyString EmptyString)
            (UrlParse.mkParse "https" "autograph.example.com" "/v2/sign"
                              EmptyString "dry=1" "top")
            _ _ eq_refl eq_refl eq_refl eq_refl);
    discriminate.
Defined.

(** *** Failures between retrieval and the signing request *)

(** X21.  After any retrieval from the object store, a checksum that
    differs from the digest of the object makes the invocation fail with
    [UnboundLocalError] for [url]: the download is the only call made,
    and the error carries neither the expected nor the actual digest. *)
Theorem X21_stored_object_mismatch
        (W : World) (e : RawEvent) (c : RawContext)
        (event : EventData) (context : ContextData)
        (url : option string) (filename : string) (lf : LocalFile)
        (st1 : State) (expected : string) :
  SignEvent_load W e = Ok event ->
  Context_load c = Ok context ->
  Py.truthy (src_url (ev_source event)) = false ->
  retrieve_xpi_download W event initial = (Ok (url, filename, lf), st1) ->
  ev_checksum event = Some expected ->
  SHA256.hexdigest (data lf) <> expected ->
  handle W e c = (Err (UnboundLocalError "url"), st1)
  /\ exists b k, trace st1 = [S3Download b k].
Proof.
  intros Hev Hctx Hu Hd Hc Hne.
  split.
  - rewrite handle_stages, Hev, Hctx,
      (stored_object_mismatch _ _ _ _ _ _ _ _ Hu Hd Hc Hne).
    reflexivity.
  - destruct (retrieve_xpi_download_spec _ _ _ _ _ Hd) as (_ & _ & Hok).
    destruct (Hok url filename lf eq_refl) as (_ & _ & Hurl).
    rewrite Hu in Hurl. subst url.
    destruct (stored_object_retrieval_shape _ _ _ _ _ _ Hd)
      as (b & k & dir & _ & _ & _ & _ & _ & Ht).
    exists b, k. exact Ht.
Qed.

(** X21, on the fixture. *)
Lemma X21_witness :
  handle (example_world None 200)
         (s3_event "addons/a.xpi" (Str fixture_sha256_off)) example_context
  = (Err (UnboundLocalError "url"),
     mkState [S3Download "incoming" "addons/a.xpi"] []).
Proof.
  pose proof (X21_stored_object_mismatch
                (example_world None 200)
                (s3_event "addons/a.xpi" (Str fixture_sha256_off))
                example_context
                (mkEvent (mkSource None (Some "incoming")
                                   (Some "addons/a.xpi"))
                         (Some fixture_sha256_off))
                (mkContext
                   (mkAutograph "alice" "secret"
                                "https://autograph.example.com/api/"
                                "extensions-ecdsa")
                   "signed-addons")
                None "a.xpi"
                (mkLocalFile "/tmp/tmpk3Zl9f" fixture_bytes 16)
                (mkState [S3Download "incoming" "addons/a.xpi"] [])
                fixture_sha256_off eq_refl eq_refl eq_refl) as H.
  assert (Hd : retrieve_xpi_download (example_world None 200)
                 (mkEvent (mkSource None (Some "incoming")
                                    (Some "addons/a.xpi"))
                          (Some fixture_sha256_off)) initial
               = (Ok (None, "a.xpi",
                      mkLocalFile "/tmp/tmpk3Zl9f" fixture_bytes 16),
                  mkState [S3Download "incoming" "addons/a.xpi"] []))
    by (vm_compute; reflexivity).
  assert (Hne : SHA256.hexdigest
                  (data (mkLocalFile "/tmp/tmpk3Zl9f" fixture_bytes 16))
                <> fixture_sha256_off)
    by (vm_compute; discriminate).
  exact (proj1 (H Hd eq_refl Hne)).
Defined.

(** X22.  The signing service is contacted only for a package the
    archive library could read and a service URL that could be joined:
    when either fails after retrieval, the invocation fails with the
    archive error, or with [ValueError], in the state retrieval left, so
    no request is sent, nothing is packaged and nothing is uploaded. *)
Theorem X22_no_request_for_unreadable_package
        (W : World) (e : RawEvent) (c : RawContext)
        (event : EventData) (context : ContextData)
        (lf : LocalFile) (filename : string) (st1 : State) :
  SignEvent_load W e = Ok event ->
  Context_load c = Ok context ->
  retrieve_xpi W event initial = (Ok (lf, filename), st1) ->
  (jar_signature W (data lf) = None ->
   handle W e c = (Err JarError, st1))
  /\ (jar_signature W (data lf) <> None ->
      UrlParse.urljoin (server_url (autograph context)) "/sign/data" = None ->
      handle W e c = (Err ValueError, st1))
  /\ quiet st1.
Proof.
  intros Hev Hctx Hr.
  rewrite handle_stages, Hev, Hctx, Hr, after_retrieve_eq.
  split; [|split].
  - intros ->. reflexivity.
  - intros Hj ->. destruct (jar_signature W (data lf)); [reflexivity|].
    contradiction.
  - exact (retrieve_xpi_quiet _ _ _ _ Hr).
Qed.

(** X22, on the fixture with an archive library that rejects the
    package. *)
Lemma X22_witness :
  let W := mkWorld (url_regex (example_world None 200)) "/tmp/tmpk3Zl9f"
                   (http_get (example_world None 200))
                   (s3_object (example_world None 200))
                   (fun _ => None)
                   (http_post (example_world None 200))
                   (fun d s _ => Some (d ++ s)) (fun _ _ _ => true) in
  handle W (url_event (Str fixture_sha256)) example_context
  = (Err JarError, mkState [HttpGet fixture_url] []).
Proof.
  intro W.
  assert (Hr : retrieve_xpi W
                 (mkEvent (mkSource (Some fixture_url) None None)
                          (Some fixture_sha256)) initial
               = (Ok (mkLocalFile "/tmp/tmpk3Zl9f" fixture_bytes 0, "a.xpi"),
                  mkState [HttpGet fixture_url] []))
    by (vm_compute; reflexivity).
  exact (proj1 (X22_no_request_for_unreadable_package
                  W (url_event (Str fixture_sha256)) example_context
                  (mkEvent (mkSource (Some fixture_url) None None)
                           (Some fixture_sha256))
                  (mkContext
                     (mkAutograph "alice" "secret"
                                  "https://autograph.example.com/api/"
                                  "extensions-ecdsa")
                     "signed-addons")
                  (mkLocalFile "/tmp/tmpk3Zl9f" fixture_bytes 0) "a.xpi"
                  (mkState [HttpGet fixture_url] [])
                  eq_refl eq_refl Hr)
               eq_refl).
Defined.
